(** * Chat with your CSVs: a shallow embedding of [application.py]

    The script is a Streamlit page: every user interaction re-executes the
    module top to bottom.  One execution is modelled as a computation in a
    small trace-and-exception monad: the trace records every call made on
    the UI toolkit and on the agent library, in program order, and the
    result is either a value or the exception that escaped.

    The external collaborators (the CSV parser, the LLM constructor, the
    agent constructor and the agent's [run]) are fields of a [World]
    record, so that every theorem quantifies over whatever they do. *)

From Stdlib Require Import String Ascii List Arith Lia Bool DecimalString.
Import ListNotations.
Open Scope string_scope.

(** ** Python string helpers *)

Module Py.

(** Characters that cannot be written inside a string literal here. *)
Definition nl : string := String (ascii_of_nat 10) EmptyString.
Definition dq : string := String (ascii_of_nat 34) EmptyString.

(** [str.join]. *)
Fixpoint join (sep : string) (xs : list string) : string :=
  match xs with
  | [] => ""
  | [x] => x
  | x :: rest => x ++ sep ++ join sep rest
  end.

(** The code points below 128 that [str.isspace] accepts:
    TAB, LF, VT, FF, CR, FS, GS, RS, US and SPACE. *)
Definition isspace (c : ascii) : bool :=
  let n := nat_of_ascii c in
  ((9 <=? n)%nat && (n <=? 13)%nat) || ((28 <=? n)%nat && (n <=? 32)%nat).

Fixpoint lstrip (s : string) : string :=
  match s with
  | EmptyString => EmptyString
  | String c r => if isspace c then lstrip r else s
  end.

Fixpoint rstrip (s : string) : string :=
  match s with
  | EmptyString => EmptyString
  | String c r =>
      match rstrip r with
      | EmptyString => if isspace c then EmptyString else String c EmptyString
      | r' => String c r'
      end
  end.

(** [str.strip()] with no argument. *)
Definition strip (s : string) : string := rstrip (lstrip s).

(** [str(n)] / [{n}] inside an f-string, for a non-negative [int]. *)
Definition str_of_nat (n : nat) : string :=
  NilEmpty.string_of_uint (Nat.to_uint n).

(** Truthiness of a [str] and of a [list]. *)
Definition truthy_str (s : string) : bool :=
  match s with EmptyString => false | _ => true end.

Definition truthy_list {A} (l : list A) : bool :=
  match l with [] => false | _ => true end.

(** [c in s] for a one-character [c]. *)
Fixpoint has_char (c : ascii) (s : string) : bool :=
  match s with
  | EmptyString => false
  | String a r => Ascii.eqb a c || has_char c r
  end.

(** [s.split(c)] for a one-character separator [c]. *)
Fixpoint split_on (c : ascii) (s : string) : list string :=
  match s with
  | EmptyString => [EmptyString]
  | String a r =>
      if Ascii.eqb a c then EmptyString :: split_on c r
      else match split_on c r with
           | x :: xs => String a x :: xs
           | [] => [String a EmptyString]
           end
  end.

Definition newline : ascii := ascii_of_nat 10.

End Py.

(** ** Exceptions and the trace monad *)

(** An exception is represented by its [str(e)], which is all the script
    ever reads from it. *)
Definition Exn : Type := string.

(** How a call ends: it returns, it raises an exception that derives from
    [Exception], or it raises one that derives from [BaseException] only
    ([KeyboardInterrupt], [SystemExit], a script-control exception of the
    UI toolkit), which [except Exception] lets through. *)
Inductive result (A : Type) : Type :=
| Ok (a : A)
| Raise (e : Exn)
| Abort (b : Exn).
Arguments Ok {A} a.
Arguments Raise {A} e.
Arguments Abort {A} b.

(** ** Data model *)

(** What [st.file_uploader] hands over for one file. *)
Record UploadedFile : Type := mkFile {
  name : string;
  body : string
}.

(** A pandas DataFrame as far as the script looks at it: the ordered column
    labels and the rows.  [pd.read_csv] with default arguments labels the
    columns with [str] values. *)
Record DataFrame : Type := mkDF {
  columns : list string;
  rows : list (list string)
}.

(** [df.head(n)]. *)
Definition head (n : nat) (df : DataFrame) : DataFrame :=
  mkDF (columns df) (firstn n (rows df)).

(** Keyword arguments of [ChatOpenAI(...)]; [temperature] is the float
    [0.0] in the script and is kept here as the integer it equals. *)
Record Llm : Type := mkLlm {
  temperature : nat;
  model : string;
  llm_api_key : string
}.

(** Arguments of [create_pandas_dataframe_agent(...)]. *)
Record Agent : Type := mkAgent {
  agent_llm : Llm;
  agent_dfs : list DataFrame;
  verbose : bool;
  agent_type : string;
  allow_dangerous_code : bool;
  handle_parsing_errors : bool
}.

(** Every call the script makes that is visible from outside, in the order
    it is made.  [st_sidebar c] is a call made under [with st.sidebar:],
    [st_column i c] a call made under [with cols[i]:]. *)
Inductive Call : Type :=
| st_set_page_config (page_title page_icon layout : string)
| st_sidebar (c : Call)
| st_column (i : nat) (c : Call)
| st_image (url : string) (width : nat)
| st_title (s : string)
| st_text_input (label : string) (password : bool) (help : option string)
| st_markdown (s : string)
| st_write (s : string)
| st_file_uploader (label : string) (types : list string) (multiple : bool)
| st_columns (n : nat)
| st_dataframe (df : DataFrame)
| st_subheader (s : string)
| st_spinner (s : string)
| st_success (s : string)
| st_error (s : string)
| st_warning (s : string)
| st_info (s : string)
| pd_read_csv (file : UploadedFile)
| ChatOpenAI (llm : Llm)
| create_pandas_dataframe_agent (a : Agent)
| agent_run (a : Agent) (prompt : string).

(** The collaborators the script does not define.  [columns_error] is the
    text of the exception [st.columns] raises when it is asked for a
    number of columns that is not positive. *)
Record World : Type := mkWorld {
  read_csv : UploadedFile -> result DataFrame;
  llm_init : Llm -> result unit;
  agent_init : Agent -> result unit;
  run : Agent -> string -> result string;
  columns_error : Exn
}.

(** What the widgets return in one execution of the script. *)
Record Inputs : Type := mkInputs {
  openai_api_key : string;
  uploaded_files : list UploadedFile;
  user_question : string
}.

(** A computation: the calls made so far and how it ended. *)
Definition M (A : Type) : Type := (list Call * result A)%type.

Definition ret {A} (a : A) : M A := ([], Ok a).

Definition raise {A} (e : Exn) : M A := ([], Raise e).

Definition bind {A B} (m : M A) (k : A -> M B) : M B :=
  match m with
  | (t, Ok a) => let (t', r) := k a in ((t ++ t')%list, r)
  | (t, Raise e) => (t, Raise e)
  | (t, Abort b) => (t, Abort b)
  end.

Definition emit (c : Call) : M unit := ([c], Ok tt).

(** A call on a collaborator: it is recorded, then it returns or raises. *)
Definition extern {A} (c : Call) (r : result A) : M A := ([c], r).

(** [try: body except Exception as e: handler e]: what does not derive
    from [Exception] is not caught. *)
Definition try_except {A} (body : M A) (handler : Exn -> M A) : M A :=
  match body with
  | (t, Ok a) => (t, Ok a)
  | (t, Raise e) => let (t', r) := handler e in ((t ++ t')%list, r)
  | (t, Abort b) => (t, Abort b)
  end.

Notation "x <- c ;; k" := (bind c (fun x => k))
  (at level 61, c at next level, right associativity).
Notation "c ;; k" := (bind c (fun _ => k))
  (at level 61, right associativity).

Definition trace {A} (m : M A) : list Call := fst m.
Definition outcome {A} (m : M A) : result A := snd m.

(** ** The script *)

Section Script.

Variable w : World.

(** Lines 7-46: page configuration, sidebar, title and file uploader.  The
    three widgets' return values are the [Inputs]. *)
Definition instructions : string :=
  Py.join Py.nl
    [ "";
      "        - Upload one or more CSV files.";
      "        - Ask in normal language, e.g.:";
      "          - " ++ Py.dq ++ "what is the return policy" ++ Py.dq;
      "          - " ++ Py.dq ++ "how much did we sell last month" ++ Py.dq;
      "          - " ++ Py.dq ++ "show complaints about delivery" ++ Py.dq;
      "        " ].

Definition page_header : M unit :=
  emit (st_set_page_config "Chat with CSV" "📊" "wide") ;;
  emit (st_sidebar
          (st_image "https://cdn-icons-png.flaticon.com/512/2814/2814668.png" 50)) ;;
  emit (st_sidebar (st_title "Configuration")) ;;
  emit (st_sidebar
          (st_text_input "OpenAI API Key" true
             (Some "Enter your OpenAI API key here."))) ;;
  emit (st_sidebar (st_markdown "---")) ;;
  emit (st_sidebar (st_markdown "### Technology Stack")) ;;
  emit (st_sidebar
          (st_markdown
             ("- Streamlit" ++ Py.nl ++ "- LangChain" ++ Py.nl ++ "- OpenAI"))) ;;
  emit (st_sidebar (st_markdown "### Instructions")) ;;
  emit (st_sidebar (st_markdown instructions)) ;;
  emit (st_title "📊 Chat with your CSVs (natural language)") ;;
  emit (st_write
          ("Upload CSV files and ask questions in normal language. "
           ++ "The AI will look inside the tables and answer using the actual data.")) ;;
  emit (st_file_uploader "Upload CSV files" ["csv"] true).

(** Lines 55-62: the loop over [enumerate(uploaded_files)].  [ncols] is
    [len(cols)], [i] the running index, [dfs] and [df_names] the two
    accumulators. *)
Fixpoint load_loop (ncols i : nat) (files : list UploadedFile)
    (dfs : list DataFrame) (df_names : list string)
    : M (list DataFrame * list string) :=
  match files with
  | [] => ret (dfs, df_names)
  | file :: rest =>
      df <- extern (pd_read_csv file) (read_csv w file) ;;
      let dfs := (dfs ++ [df])%list in
      let df_names := (df_names ++ [name file])%list in
      emit (st_column (i mod ncols) (st_write ("**" ++ name file ++ "**"))) ;;
      emit (st_column (i mod ncols) (st_dataframe (head 3 df))) ;;
      load_loop ncols (S i) rest dfs df_names
  end.

(** Line 53: [st.columns(n)] returns the [n] columns when [n] is positive
    and raises otherwise. *)
Definition make_columns (n : nat) : M unit :=
  extern (st_columns n)
         (if (n =? 0)%nat then Raise (columns_error w) else Ok tt).

(** Lines 49-62. *)
Definition load_tables (files : list UploadedFile)
    : M (list DataFrame * list string) :=
  emit (st_write ("### Loaded " ++ Py.str_of_nat (length files) ++ " CSV file(s):")) ;;
  make_columns (length files) ;;
  load_loop (length files) 0 files [] [].

(** Line 67: [[str(c) for c in df.columns[:15]]]; the labels are already
    [str], on which [str] is the identity. *)
Definition str (c : string) : string := c.

Definition cols_sample (df : DataFrame) : list string :=
  map str (firstn 15 (columns df)).

(** Line 68: one summary line. *)
Definition summary_line (name : string) (df : DataFrame) : string :=
  "- File: '" ++ name ++ "' | Columns: " ++ Py.join ", " (cols_sample df).

(** Lines 65-69. *)
Definition summaries (df_names : list string) (dfs : list DataFrame)
    : list string :=
  map (fun p => summary_line (fst p) (snd p)) (combine df_names dfs).

Definition df_summary_text (df_names : list string) (dfs : list DataFrame)
    : string :=
  Py.join Py.nl (summaries df_names dfs).

(** Lines 72-102: the f-string, before [.strip()], is [prompt_head]
    followed by the summary followed by [prompt_tail]. *)
Definition prompt_head : string :=
  Py.join Py.nl
    [ "";
      "You are a strict data assistant working with one or more pandas DataFrames.";
      "";
      "GENERAL RULES";
      "- You MUST always inspect the DataFrames using Python / pandas before answering.";
      "- You are NOT allowed to answer from general knowledge or guesses.";
      "- Never respond with " ++ Py.dq ++ "you can find it in column X" ++ Py.dq
        ++ " or " ++ Py.dq ++ "it is stored in the dataframe" ++ Py.dq ++ ".";
      "- Always return the actual values from the DataFrame.";
      "";
      "TEXT QUESTIONS (FAQs / policies, etc.)";
      "- For questions like " ++ Py.dq ++ "what is the return policy" ++ Py.dq
        ++ " or " ++ Py.dq ++ "what is the warranty" ++ Py.dq ++ ", do this:";
      "  1. Look through all object/string columns for relevant rows";
      "     (for example using df[col].str.contains(keyword, case=False, na=False)).";
      "  2. If there is a column named 'Answer', 'Policy', 'Description', 'Details'";
      "     or similar, treat that as the main answer column.";
      "  3. Return the cell text from the most relevant row(s).";
      "  4. If multiple rows are relevant, list them clearly (e.g. bullet points).";
      "";
      "NUMERIC QUESTIONS";
      "- For numeric questions (totals, counts, averages, etc.), use pandas operations";
      "  on the numeric columns (sum, mean, groupby, etc.) and give the computed result.";
      "";
      "ABOUT THE DATA";
      "The following DataFrames are loaded from CSV files:";
      "" ].

Definition prompt_tail : string :=
  Py.join Py.nl
    [ "";
      "";
      "ANSWER STYLE";
      "- Answer in plain English.";
      "- Quote the actual text or numbers from the DataFrame.";
      "- Only mention file/column names briefly if helpful.";
      "    " ].

Definition system_prompt (df_names : list string) (dfs : list DataFrame)
    : string :=
  Py.strip (prompt_head ++ df_summary_text df_names dfs ++ prompt_tail).

(** Lines 132-136. *)
Definition final_query (system_prompt user_question : string) : string :=
  system_prompt
  ++ Py.nl ++ Py.nl ++ "Now answer this question using the DataFrames only:" ++ Py.nl
  ++ user_question.

(** Lines 128-144: the body guarded by [if user_question:]. *)
Definition answer (agent : Agent) (system_prompt user_question : string)
    : M unit :=
  if Py.truthy_str user_question then
    emit (st_spinner "Reading your CSVs and answering from the data...") ;;
    try_except
      (let final_query := final_query system_prompt user_question in
       response <- extern (agent_run agent final_query) (run w agent final_query) ;;
       emit (st_success "Analysis complete!") ;;
       emit (st_write "### AI Response:") ;;
       emit (st_markdown response))
      (fun e => emit (st_error ("Error while answering: " ++ e)))
  else ret tt.

(** Lines 104-147: the outer [try]. *)
Definition ask (key : string) (dfs : list DataFrame)
    (system_prompt user_question : string) : M unit :=
  try_except
    (let llm := mkLlm 0 "gpt-4o" key in
     extern (ChatOpenAI llm) (llm_init w llm) ;;
     let agent := mkAgent llm dfs true "openai-functions" true true in
     extern (create_pandas_dataframe_agent agent) (agent_init w agent) ;;
     emit (st_markdown "---") ;;
     emit (st_subheader "Ask a question in normal language") ;;
     emit (st_text_input
             "Example: 'what is the return policy', 'total sales for 2023', 'show all delayed shipments'"
             false None) ;;
     answer agent system_prompt user_question)
    (fun e => emit (st_error ("Error initializing the AI agent: " ++ e))).

(** The whole module, lines 7-152. *)
Definition main (inp : Inputs) : M unit :=
  page_header ;;
  if Py.truthy_list (uploaded_files inp) && Py.truthy_str (openai_api_key inp) then
    p <- load_tables (uploaded_files inp) ;;
    let dfs := fst p in
    let df_names := snd p in
    let system_prompt := system_prompt df_names dfs in
    ask (openai_api_key inp) dfs system_prompt (user_question inp)
  else if negb (Py.truthy_str (openai_api_key inp)) then
    emit (st_warning "Please enter your OpenAI API Key in the sidebar to proceed.")
  else
    emit (st_info "Please upload your CSV files to start.").

End Script.

(** ** Observations on a trace *)

Definition is_agent_run (c : Call) : bool :=
  match c with agent_run _ _ => true | _ => false end.

(** The calls of [agent.run] in a trace, in order. *)
Definition agent_calls (t : list Call) : list Call := filter is_agent_run t.

(** The data frames handed to [st.dataframe], wherever they are drawn. *)
Fixpoint shown_in (c : Call) : list DataFrame :=
  match c with
  | st_dataframe df => [df]
  | st_sidebar c' => shown_in c'
  | st_column _ c' => shown_in c'
  | _ => []
  end.

Definition dataframes_shown (t : list Call) : list DataFrame :=
  flat_map shown_in t.

(** The calls of lines 7-46. *)
Definition header_calls : list Call := Eval cbv in trace page_header.

(** What one pass of the loop body leaves in the trace when the file
    parses to [df]. *)
Definition preview_calls (ncols i : nat) (file : UploadedFile) (df : DataFrame)
    : list Call :=
  [ pd_read_csv file;
    st_column (i mod ncols) (st_write ("**" ++ name file ++ "**"));
    st_column (i mod ncols) (st_dataframe (head 3 df)) ].

Fixpoint loop_calls (ncols i : nat) (files : list UploadedFile)
    (dfs : list DataFrame) : list Call :=
  match files, dfs with
  | file :: files', df :: dfs' =>
      (preview_calls ncols i file df ++ loop_calls ncols (S i) files' dfs')%list
  | _, _ => []
  end.

(** The two calls of lines 52-53. *)
Definition banner_calls (n : nat) : list Call :=
  [ st_write ("### Loaded " ++ Py.str_of_nat n ++ " CSV file(s):");
    st_columns n ].

(** The objects built on lines 106-119. *)
Definition the_llm (key : string) : Llm := mkLlm 0 "gpt-4o" key.

Definition the_agent (key : string) (dfs : list DataFrame) : Agent :=
  mkAgent (the_llm key) dfs true "openai-functions" true true.

(** The calls of lines 106-126 when both constructors return. *)
Definition setup_calls (key : string) (dfs : list DataFrame) : list Call :=
  [ ChatOpenAI (the_llm key);
    create_pandas_dataframe_agent (the_agent key dfs);
    st_markdown "---";
    st_subheader "Ask a question in normal language";
    st_text_input
      "Example: 'what is the return policy', 'total sales for 2023', 'show all delayed shipments'"
      false None ].

(** The f-string of lines 72-102 after [.strip()]: the fixed policy text
    with the summary block inside it. *)
Definition policy_head : string :=
  match prompt_head with
  | String _ s => s
  | EmptyString => EmptyString
  end.

Definition policy_tail : string :=
  Eval cbv in Py.rstrip prompt_tail.

Definition policy_text (summary : string) : string :=
  policy_head ++ summary ++ policy_tail.

(** Every file parses, to the frames [dfs], in order. *)
Definition parses (w : World) (files : list UploadedFile)
    (dfs : list DataFrame) : Prop :=
  Forall2 (fun f df => read_csv w f = Ok df) files dfs.

(** The script is ready to take a question: a key, files that all parse,
    and both constructors returning. *)
Record ready (w : World) (inp : Inputs) (dfs : list DataFrame) : Prop := {
  ready_key : openai_api_key inp <> "";
  ready_files : uploaded_files inp <> [];
  ready_parse : parses w (uploaded_files inp) dfs;
  ready_llm : llm_init w (the_llm (openai_api_key inp)) = Ok tt;
  ready_agent : agent_init w (the_agent (openai_api_key inp) dfs) = Ok tt
}.

(** The prompt the script sends for the tables [dfs] of [inp]. *)
Definition the_prompt (inp : Inputs) (dfs : list DataFrame) : string :=
  final_query
    (system_prompt (map name (uploaded_files inp)) dfs)
    (user_question inp).

(** ** The composition the specification words for the prompt *)

(** The final string as the specification spells it: policy text, a blank
    line, the instruction line on "tables", the question. *)
Definition spec_final_query (policy user_question : string) : string :=
  policy ++ Py.nl ++ Py.nl
  ++ "Now answer this question using the tables only:" ++ Py.nl
  ++ user_question.

(** The loader as the specification's scenario B describes it: every
    well-formed file among [files] gets its preview drawn. *)
Definition previews_all_wellformed (w : World) (files : list UploadedFile)
    : Prop :=
  forall f df, In f files -> read_csv w f = Ok df ->
    In (head 3 df) (dataframes_shown (trace (load_tables w files))).

(** The calls of lines 129-144 when the question is not empty, by what
    [agent.run] does. *)
Definition answered_calls (agent : Agent) (prompt response : string)
    : list Call :=
  [ st_spinner "Reading your CSVs and answering from the data...";
    agent_run agent prompt;
    st_success "Analysis complete!";
    st_write "### AI Response:";
    st_markdown response ].

Definition failed_calls (agent : Agent) (prompt : string) (e : Exn)
    : list Call :=
  [ st_spinner "Reading your CSVs and answering from the data...";
    agent_run agent prompt;
    st_error ("Error while answering: " ++ e) ].

(** The calls of lines 7-126 in a ready session. *)
Definition ready_calls (inp : Inputs) (dfs : list DataFrame) : list Call :=
  (header_calls
   ++ banner_calls (length (uploaded_files inp))
   ++ loop_calls (length (uploaded_files inp)) 0 (uploaded_files inp) dfs
   ++ setup_calls (openai_api_key inp) dfs)%list.

(** ** A concrete session *)

Module Demo.

Definition sales_df : DataFrame :=
  mkDF ["Date"; "Region"; "Amount"]
       [ ["2023-01-05"; "North"; "120"];
         ["2023-01-09"; "South"; "80"];
         ["2023-02-11"; "North"; "45"];
         ["2023-02-20"; "West"; "300"] ].

Definition faq_df : DataFrame :=
  mkDF ["Question"; "Answer"]
       [ ["what is the return policy"; "Returns are accepted within 30 days."] ].

(** Seventeen columns, two more than the summary keeps. *)
Definition wide_df : DataFrame :=
  mkDF ["c01"; "c02"; "c03"; "c04"; "c05"; "c06"; "c07"; "c08"; "c09";
        "c10"; "c11"; "c12"; "c13"; "c14"; "c15"; "c16"; "c17"]
       [].

Definition sales_csv : UploadedFile :=
  mkFile "sales.csv"
    (Py.join Py.nl
       [ "Date,Region,Amount"; "2023-01-05,North,120"; "2023-01-09,South,80";
         "2023-02-11,North,45"; "2023-02-20,West,300" ]).

Definition faq_csv : UploadedFile :=
  mkFile "faq.csv"
    (Py.join Py.nl
       [ "Question,Answer";
         "what is the return policy,Returns are accepted within 30 days." ]).

(** A row with more fields than the header announces. *)
Definition broken_csv : UploadedFile :=
  mkFile "broken.csv" (Py.join Py.nl [ "a,b"; "1,2"; "3,4,5,6" ]).

Definition tokenizing_error : Exn :=
  "Error tokenizing data. C error: Expected 2 fields in line 3, saw 4".

Definition parse (file : UploadedFile) : result DataFrame :=
  if String.eqb (name file) "sales.csv" then Ok sales_df
  else if String.eqb (name file) "faq.csv" then Ok faq_df
  else Raise tokenizing_error.

Definition reply : string := "Returns are accepted within 30 days.".

Definition no_columns : Exn :=
  "The input argument to st.columns must be either a positive integer or a list of positive numeric weights. See [documentation](https://docs.streamlit.io/library/api-reference/layout/st.columns) for more information.".

(** A world where the agent answers, and one where it fails. *)
Definition answering : World :=
  mkWorld parse (fun _ => Ok tt) (fun _ => Ok tt) (fun _ _ => Ok reply)
          no_columns.

Definition failing : World :=
  mkWorld parse (fun _ => Ok tt) (fun _ => Ok tt)
          (fun _ _ => Raise "Rate limit reached") no_columns.

Definition session : Inputs :=
  mkInputs "sk-test" [sales_csv; faq_csv] "what is the return policy".

(** The same session under another key. *)
Definition session' : Inputs :=
  mkInputs "sk-other" [sales_csv; faq_csv] "what is the return policy".

(** A question made of three spaces. *)
Definition blank_question : Inputs :=
  mkInputs "sk-test" [sales_csv; faq_csv] "   ".

(** Three uploads, the middle one malformed. *)
Definition with_broken : Inputs :=
  mkInputs "sk-test" [sales_csv; broken_csv; faq_csv]
           "what is the return policy".

(** Nothing entered yet. *)
Definition fresh : Inputs := mkInputs "" [] "".

Definition tables : list DataFrame := [sales_df; faq_df].

(** A world whose LLM constructor rejects the key, and one whose agent
    constructor fails. *)
Definition rejecting : World :=
  mkWorld parse (fun _ => Raise "Incorrect API key provided")
          (fun _ => Ok tt) (fun _ _ => Ok reply) no_columns.

Definition unbuildable : World :=
  mkWorld parse (fun _ => Ok tt)
          (fun _ => Raise "tabulate is not installed") (fun _ _ => Ok reply)
          no_columns.

(** A world where the agent's generated code leaves through [SystemExit]. *)
Definition exiting : World :=
  mkWorld parse (fun _ => Ok tt) (fun _ => Ok tt) (fun _ _ => Abort "0")
          no_columns.

(** Files uploaded, no key entered. *)
Definition keyless : Inputs :=
  mkInputs "" [sales_csv; faq_csv] "what is the return policy".

(** Key and files, no question typed yet. *)
Definition waiting : Inputs := mkInputs "sk-test" [sales_csv; faq_csv] "".

End Demo.

(** ** The ways one execution can go *)

(** The branch an execution takes, with what was parsed or raised on it. *)
Inductive Path : Type :=
| NoKey
| NoFiles
| ParseFailed (pre : list UploadedFile) (bad : UploadedFile)
              (post : list UploadedFile) (tables : list DataFrame) (e : Exn)
| LlmFailed (dfs : list DataFrame) (e : Exn)
| AgentFailed (dfs : list DataFrame) (e : Exn)
| Idle (dfs : list DataFrame)
| Answered (dfs : list DataFrame) (r : string)
| Failed (dfs : list DataFrame) (e : Exn)
| ParseAborted (pre : list UploadedFile) (bad : UploadedFile)
               (post : list UploadedFile) (tables : list DataFrame) (b : Exn)
| LlmAborted (dfs : list DataFrame) (b : Exn)
| AgentAborted (dfs : list DataFrame) (b : Exn)
| RunAborted (dfs : list DataFrame) (b : Exn).

(** The calls of lines 7-62 when every file parses to [dfs]. *)
Definition loaded_calls (inp : Inputs) (dfs : list DataFrame) : list Call :=
  (header_calls
   ++ banner_calls (length (uploaded_files inp))
   ++ loop_calls (length (uploaded_files inp)) 0 (uploaded_files inp) dfs)%list.

(** When the branch is taken. *)
Definition taken (w : World) (inp : Inputs) (path : Path) : Prop :=
  match path with
  | NoKey => openai_api_key inp = ""
  | NoFiles => openai_api_key inp <> "" /\ uploaded_files inp = []
  | ParseFailed pre bad post tables e =>
      openai_api_key inp <> ""
      /\ uploaded_files inp = (pre ++ bad :: post)%list
      /\ parses w pre tables
      /\ read_csv w bad = Raise e
  | LlmFailed dfs e =>
      openai_api_key inp <> "" /\ uploaded_files inp <> []
      /\ parses w (uploaded_files inp) dfs
      /\ llm_init w (the_llm (openai_api_key inp)) = Raise e
  | AgentFailed dfs e =>
      openai_api_key inp <> "" /\ uploaded_files inp <> []
      /\ parses w (uploaded_files inp) dfs
      /\ llm_init w (the_llm (openai_api_key inp)) = Ok tt
      /\ agent_init w (the_agent (openai_api_key inp) dfs) = Raise e
  | Idle dfs => ready w inp dfs /\ user_question inp = ""
  | Answered dfs r =>
      ready w inp dfs /\ user_question inp <> ""
      /\ run w (the_agent (openai_api_key inp) dfs) (the_prompt inp dfs) = Ok r
  | Failed dfs e =>
      ready w inp dfs /\ user_question inp <> ""
      /\ run w (the_agent (openai_api_key inp) dfs) (the_prompt inp dfs) = Raise e
  | ParseAborted pre bad post tables b =>
      openai_api_key inp <> ""
      /\ uploaded_files inp = (pre ++ bad :: post)%list
      /\ parses w pre tables
      /\ read_csv w bad = Abort b
  | LlmAborted dfs b =>
      openai_api_key inp <> "" /\ uploaded_files inp <> []
      /\ parses w (uploaded_files inp) dfs
      /\ llm_init w (the_llm (openai_api_key inp)) = Abort b
  | AgentAborted dfs b =>
      openai_api_key inp <> "" /\ uploaded_files inp <> []
      /\ parses w (uploaded_files inp) dfs
      /\ llm_init w (the_llm (openai_api_key inp)) = Ok tt
      /\ agent_init w (the_agent (openai_api_key inp) dfs) = Abort b
  | RunAborted dfs b =>
      ready w inp dfs /\ user_question inp <> ""
      /\ run w (the_agent (openai_api_key inp) dfs) (the_prompt inp dfs) = Abort b
  end.

(** What the execution is on that branch. *)
Definition path_run (inp : Inputs) (path : Path) : M unit :=
  match path with
  | NoKey =>
      ((header_calls
        ++ [st_warning
              "Please enter your OpenAI API Key in the sidebar to proceed."])%list,
       Ok tt)
  | NoFiles =>
      ((header_calls ++ [st_info "Please upload your CSV files to start."])%list,
       Ok tt)
  | ParseFailed pre bad post tables e =>
      ((header_calls
        ++ banner_calls (length (uploaded_files inp))
        ++ loop_calls (length (uploaded_files inp)) 0 pre tables
        ++ [pd_read_csv bad])%list,
       Raise e)
  | LlmFailed dfs e =>
      ((loaded_calls inp dfs
        ++ [ ChatOpenAI (the_llm (openai_api_key inp));
             st_error ("Error initializing the AI agent: " ++ e) ])%list,
       Ok tt)
  | AgentFailed dfs e =>
      ((loaded_calls inp dfs
        ++ [ ChatOpenAI (the_llm (openai_api_key inp));
             create_pandas_dataframe_agent (the_agent (openai_api_key inp) dfs);
             st_error ("Error initializing the AI agent: " ++ e) ])%list,
       Ok tt)
  | Idle dfs => (ready_calls inp dfs, Ok tt)
  | Answered dfs r =>
      ((ready_calls inp dfs
        ++ answered_calls (the_agent (openai_api_key inp) dfs)
             (the_prompt inp dfs) r)%list,
       Ok tt)
  | Failed dfs e =>
      ((ready_calls inp dfs
        ++ failed_calls (the_agent (openai_api_key inp) dfs)
             (the_prompt inp dfs) e)%list,
       Ok tt)
  | ParseAborted pre bad post tables b =>
      ((header_calls
        ++ banner_calls (length (uploaded_files inp))
        ++ loop_calls (length (uploaded_files inp)) 0 pre tables
        ++ [pd_read_csv bad])%list,
       Abort b)
  | LlmAborted dfs b =>
      ((loaded_calls inp dfs
        ++ [ChatOpenAI (the_llm (openai_api_key inp))])%list,
       Abort b)
  | AgentAborted dfs b =>
      ((loaded_calls inp dfs
        ++ [ ChatOpenAI (the_llm (openai_api_key inp));
             create_pandas_dataframe_agent (the_agent (openai_api_key inp) dfs) ])%list,
       Abort b)
  | RunAborted dfs b =>
      ((ready_calls inp dfs
        ++ [ st_spinner "Reading your CSVs and answering from the data...";
             agent_run (the_agent (openai_api_key inp) dfs) (the_prompt inp dfs) ])%list,
       Abort b)
  end.

(** More observations on a trace. *)

(** The files handed to [pd.read_csv], in order. *)
Definition files_read (t : list Call) : list UploadedFile :=
  flat_map (fun c => match c with pd_read_csv f => [f] | _ => [] end) t.

(** The calls on the UI toolkit, as opposed to those on pandas and on the
    agent library. *)
Definition is_ui (c : Call) : bool :=
  match c with
  | pd_read_csv _ | ChatOpenAI _ | create_pandas_dataframe_agent _
  | agent_run _ _ => false
  | _ => true
  end.

Definition ui_calls (t : list Call) : list Call := filter is_ui t.

(** The column a call is drawn in, when it is drawn in one. *)
Definition column_of (c : Call) : option nat :=
  match c with st_column i _ => Some i | _ => None end.

Definition in_column (c : Call) : bool :=
  match column_of c with Some _ => true | None => false end.

Definition is_banner (c : Call) : bool :=
  match c with
  | st_success _ | st_error _ | st_warning _ | st_info _ => true
  | _ => false
  end.

(** The success, error, warning and info banners of a trace. *)
Definition banners (t : list Call) : list Call := filter is_banner t.

Definition is_question_field (c : Call) : bool :=
  match c with st_text_input _ false _ => true | _ => false end.

Definition is_constructor (c : Call) : bool :=
  match c with
  | ChatOpenAI _ | create_pandas_dataframe_agent _ => true
  | _ => false
  end.

(** ** Equations of the monad *)

Lemma bind_ok {A B} (t : list Call) (a : A) (k : A -> M B) :
  bind (t, Ok a) k = ((t ++ trace (k a))%list, outcome (k a)).
Proof. unfold bind, trace, outcome. now destruct (k a). Qed.

Lemma bind_raise {A B} (t : list Call) (e : Exn) (k : A -> M B) :
  bind (t, Raise e) k = (t, Raise e).
Proof. reflexivity. Qed.

Lemma bind_abort {A B} (t : list Call) (b : Exn) (k : A -> M B) :
  bind (t, Abort b) k = (t, Abort b).
Proof. reflexivity. Qed.

Lemma try_ok {A} (t : list Call) (a : A) (h : Exn -> M A) :
  try_except (t, Ok a) h = (t, Ok a).
Proof. reflexivity. Qed.

Lemma try_raise {A} (t : list Call) (e : Exn) (h : Exn -> M A) :
  try_except (t, Raise e) h = ((t ++ trace (h e))%list, outcome (h e)).
Proof. unfold try_except, trace, outcome. now destruct (h e). Qed.


Lemma page_header_eq : page_header = (header_calls, Ok tt).
Proof. reflexivity. Qed.

Lemma agent_calls_app (t u : list Call) :
  agent_calls (t ++ u) = (agent_calls t ++ agent_calls u)%list.
Proof. apply filter_app. Qed.

Lemma agent_calls_header : agent_calls header_calls = [].
Proof. reflexivity. Qed.

(** ** Python string facts *)

Lemma truthy_str_true (s : string) : s <> "" -> Py.truthy_str s = true.
Proof. destruct s; [congruence | reflexivity]. Qed.

Lemma truthy_list_true {A} (l : list A) : l <> [] -> Py.truthy_list l = true.
Proof. destruct l; [congruence | reflexivity]. Qed.

Lemma string_app_assoc (a b c : string) : (a ++ b) ++ c = a ++ (b ++ c).
Proof. induction a as [| x a IH]; simpl; [reflexivity | now rewrite IH]. Qed.

Lemma rstrip_app_keep (a b : string) :
  Py.rstrip b <> "" -> Py.rstrip (a ++ b) = a ++ Py.rstrip b.
Proof.
  intros Hb. induction a as [| x a IH]; simpl; [reflexivity |].
  rewrite IH. destruct (a ++ Py.rstrip b) eqn:E; [| reflexivity].
  destruct a; simpl in E; [congruence | discriminate].
Qed.

(** [.strip()] on line 102 removes exactly the newline the f-string
    starts with and the newline and indentation it ends with. *)
Lemma system_prompt_policy (df_names : list string) (dfs : list DataFrame) :
  system_prompt df_names dfs = policy_text (df_summary_text df_names dfs).
Proof.
  unfold system_prompt, policy_text, Py.strip.
  change prompt_head with (String (ascii_of_nat 10) policy_head).
  change (Py.lstrip (String (ascii_of_nat 10) policy_head ++ ?s))
    with (policy_head ++ s).
  rewrite <- string_app_assoc.
  rewrite rstrip_app_keep by (vm_compute; discriminate).
  now rewrite string_app_assoc.
Qed.

(** Push a computation through the binds whose left side has returned. *)
Ltac run_binds :=
  cbv beta zeta;
  repeat (first [rewrite bind_ok | rewrite bind_raise | rewrite bind_abort];
          cbv beta zeta).

(** ** The loader loop *)

Section Loader.

Variable w : World.

Lemma load_loop_parses (ncols : nat) (files : list UploadedFile) :
  forall (tables : list DataFrame) (i : nat)
         (dfs : list DataFrame) (df_names : list string),
    parses w files tables ->
    load_loop w ncols i files dfs df_names
    = (loop_calls ncols i files tables,
       Ok ((dfs ++ tables)%list, (df_names ++ map name files)%list)).
Proof.
  induction files as [| f files IH]; intros tables i dfs df_names Hp;
    inversion Hp as [| f' df fs' tables' Hf Hrest]; subst.
  - simpl. unfold ret. now rewrite !app_nil_r.
  - simpl load_loop. unfold extern, emit. rewrite Hf. run_binds.
    rewrite (IH tables' (S i) _ _ Hrest).
    unfold trace, outcome. simpl fst. simpl snd.
    rewrite <- !app_assoc. reflexivity.
Qed.

Lemma load_loop_fails (ncols : nat) (pre : list UploadedFile) :
  forall (tables : list DataFrame) (bad : UploadedFile)
         (post : list UploadedFile) (e : Exn) (i : nat)
         (dfs : list DataFrame) (df_names : list string),
    parses w pre tables ->
    read_csv w bad = Raise e ->
    load_loop w ncols i (pre ++ bad :: post) dfs df_names
    = ((loop_calls ncols i pre tables ++ [pd_read_csv bad])%list, Raise e).
Proof.
  induction pre as [| f pre IH]; intros tables bad post e i dfs df_names Hp Hbad;
    inversion Hp as [| f' df fs' tables' Hf Hrest]; subst.
  - simpl. unfold extern. now rewrite Hbad.
  - simpl app. simpl load_loop. unfold extern, emit. rewrite Hf. run_binds.
    rewrite (IH tables' bad post e (S i) _ _ Hrest Hbad).
    unfold trace, outcome. simpl fst. simpl snd.
    reflexivity.
Qed.

Lemma load_loop_aborts (ncols : nat) (pre : list UploadedFile) :
  forall (tables : list DataFrame) (bad : UploadedFile)
         (post : list UploadedFile) (b : Exn) (i : nat)
         (dfs : list DataFrame) (df_names : list string),
    parses w pre tables ->
    read_csv w bad = Abort b ->
    load_loop w ncols i (pre ++ bad :: post) dfs df_names
    = ((loop_calls ncols i pre tables ++ [pd_read_csv bad])%list, Abort b).
Proof.
  induction pre as [| f pre IH]; intros tables bad post b i dfs df_names Hp Hbad;
    inversion Hp as [| f' df fs' tables' Hf Hrest]; subst.
  - simpl. unfold extern. now rewrite Hbad.
  - simpl app. simpl load_loop. unfold extern, emit. rewrite Hf. run_binds.
    rewrite (IH tables' bad post b (S i) _ _ Hrest Hbad).
    unfold trace, outcome. simpl fst. simpl snd.
    reflexivity.
Qed.

(** Either every file parses, or there is a first one that does not. *)
Lemma parses_or_first_failure (files : list UploadedFile) :
  (exists tables, parses w files tables)
  \/ (exists pre bad post tables,
        files = (pre ++ bad :: post)%list
        /\ parses w pre tables
        /\ ((exists e, read_csv w bad = Raise e)
            \/ (exists b, read_csv w bad = Abort b))).
Proof.
  induction files as [| f files IH].
  - left. exists []. constructor.
  - destruct (read_csv w f) as [df | e | b] eqn:Hf.
    + destruct IH as [[tables Hp] | (pre & bad & post & tables & -> & Hp & Hb)].
      * left. exists (df :: tables). now constructor.
      * right. exists (f :: pre), bad, post, (df :: tables).
        repeat split; trivial. now constructor.
    + right. exists [], f, files, []. repeat split; eauto. constructor.
    + right. exists [], f, files, []. repeat split; eauto. constructor.
Qed.

Lemma parses_length (files : list UploadedFile) (tables : list DataFrame) :
  parses w files tables -> length tables = length files.
Proof. intros H. symmetry. exact (Forall2_length H). Qed.


Lemma make_columns_some (n : nat) :
  n <> 0 -> make_columns w n = ([st_columns n], Ok tt).
Proof.
  intros Hn. unfold make_columns, extern.
  destruct n; [congruence | reflexivity].
Qed.

Lemma length_nonempty {A} (l : list A) : l <> [] -> length l <> 0.
Proof. destruct l; [congruence | discriminate]. Qed.

Lemma load_tables_parses (files : list UploadedFile) (tables : list DataFrame) :
  files <> [] ->
  parses w files tables ->
  load_tables w files
  = ((banner_calls (length files) ++ loop_calls (length files) 0 files tables)%list,
     Ok (tables, map name files)).
Proof.
  intros Hne Hp. unfold load_tables, emit.
  rewrite (make_columns_some _ (length_nonempty _ Hne)). run_binds.
  rewrite (load_loop_parses _ _ _ _ _ _ Hp).
  unfold trace, outcome. simpl. reflexivity.
Qed.

Lemma load_tables_fails (pre post : list UploadedFile) (bad : UploadedFile)
    (tables : list DataFrame) (e : Exn) :
  parses w pre tables ->
  read_csv w bad = Raise e ->
  let files := (pre ++ bad :: post)%list in
  load_tables w files
  = ((banner_calls (length files) ++ loop_calls (length files) 0 pre tables
        ++ [pd_read_csv bad])%list,
     Raise e).
Proof.
  intros Hp Hb files. unfold load_tables, emit.
  rewrite make_columns_some
    by (apply length_nonempty; unfold files; now destruct pre).
  run_binds.
  unfold files. rewrite (load_loop_fails _ _ _ _ _ _ _ _ _ Hp Hb).
  unfold trace, outcome. simpl. reflexivity.
Qed.

Lemma load_tables_aborts (pre post : list UploadedFile) (bad : UploadedFile)
    (tables : list DataFrame) (b : Exn) :
  parses w pre tables ->
  read_csv w bad = Abort b ->
  let files := (pre ++ bad :: post)%list in
  load_tables w files
  = ((banner_calls (length files) ++ loop_calls (length files) 0 pre tables
        ++ [pd_read_csv bad])%list,
     Abort b).
Proof.
  intros Hp Hb files. unfold load_tables, emit.
  rewrite make_columns_some
    by (apply length_nonempty; unfold files; now destruct pre).
  run_binds.
  unfold files. rewrite (load_loop_aborts _ _ _ _ _ _ _ _ _ Hp Hb).
  unfold trace, outcome. simpl. reflexivity.
Qed.

End Loader.

Lemma agent_calls_loop (ncols : nat) (files : list UploadedFile) :
  forall (tables : list DataFrame) (i : nat),
    agent_calls (loop_calls ncols i files tables) = [].
Proof.
  induction files as [| f files IH]; intros [| df tables] i; simpl; auto.
Qed.

Lemma shown_loop (ncols : nat) (files : list UploadedFile) :
  forall (tables : list DataFrame) (i : nat),
    length tables = length files ->
    dataframes_shown (loop_calls ncols i files tables) = map (head 3) tables.
Proof.
  induction files as [| f files IH]; intros [| df tables] i Hl;
    simpl in *; try discriminate; trivial.
  f_equal. apply IH. lia.
Qed.

(** ** The question and the agent *)

Section Asking.

Variable w : World.

Lemma answer_empty (agent : Agent) (sp : string) :
  answer w agent sp "" = ([], Ok tt).
Proof. reflexivity. Qed.

Lemma answer_ok (agent : Agent) (sp q r : string) :
  q <> "" ->
  run w agent (final_query sp q) = Ok r ->
  answer w agent sp q = (answered_calls agent (final_query sp q) r, Ok tt).
Proof.
  intros Hq Hr. unfold answer. rewrite (truthy_str_true _ Hq).
  unfold emit, extern. rewrite Hr. run_binds. reflexivity.
Qed.

Lemma answer_raise (agent : Agent) (sp q : string) (e : Exn) :
  q <> "" ->
  run w agent (final_query sp q) = Raise e ->
  answer w agent sp q = (failed_calls agent (final_query sp q) e, Ok tt).
Proof.
  intros Hq Hr. unfold answer. rewrite (truthy_str_true _ Hq).
  unfold emit, extern. rewrite Hr. run_binds. reflexivity.
Qed.

Lemma answer_abort (agent : Agent) (sp q : string) (b : Exn) :
  q <> "" ->
  run w agent (final_query sp q) = Abort b ->
  answer w agent sp q
  = ([ st_spinner "Reading your CSVs and answering from the data...";
       agent_run agent (final_query sp q) ],
     Abort b).
Proof.
  intros Hq Hr. unfold answer. rewrite (truthy_str_true _ Hq).
  unfold emit, extern. rewrite Hr. run_binds. reflexivity.
Qed.

Lemma ask_llm_raises (key : string) (dfs : list DataFrame) (sp q : string)
    (e : Exn) :
  llm_init w (the_llm key) = Raise e ->
  ask w key dfs sp q
  = ([ChatOpenAI (the_llm key);
      st_error ("Error initializing the AI agent: " ++ e)], Ok tt).
Proof.
  intros H. unfold ask, extern, emit. fold (the_llm key). cbv zeta.
  rewrite H. run_binds. reflexivity.
Qed.

Lemma ask_llm_aborts (key : string) (dfs : list DataFrame) (sp q : string)
    (b : Exn) :
  llm_init w (the_llm key) = Abort b ->
  ask w key dfs sp q = ([ChatOpenAI (the_llm key)], Abort b).
Proof.
  intros H. unfold ask, extern, emit. fold (the_llm key). cbv zeta.
  rewrite H. run_binds. reflexivity.
Qed.

Lemma ask_agent_aborts (key : string) (dfs : list DataFrame) (sp q : string)
    (b : Exn) :
  llm_init w (the_llm key) = Ok tt ->
  agent_init w (the_agent key dfs) = Abort b ->
  ask w key dfs sp q
  = ([ChatOpenAI (the_llm key);
      create_pandas_dataframe_agent (the_agent key dfs)], Abort b).
Proof.
  intros H1 H2. unfold ask, extern, emit. fold (the_llm key). cbv zeta.
  fold (the_agent key dfs). rewrite H1. run_binds.
  rewrite H2. run_binds. reflexivity.
Qed.

Lemma ask_agent_raises (key : string) (dfs : list DataFrame) (sp q : string)
    (e : Exn) :
  llm_init w (the_llm key) = Ok tt ->
  agent_init w (the_agent key dfs) = Raise e ->
  ask w key dfs sp q
  = ([ChatOpenAI (the_llm key);
      create_pandas_dataframe_agent (the_agent key dfs);
      st_error ("Error initializing the AI agent: " ++ e)], Ok tt).
Proof.
  intros H1 H2. unfold ask, extern, emit. fold (the_llm key). cbv zeta.
  fold (the_agent key dfs). rewrite H1. run_binds.
  rewrite H2. run_binds. reflexivity.
Qed.

Lemma ask_ready (key : string) (dfs : list DataFrame) (sp q : string) :
  llm_init w (the_llm key) = Ok tt ->
  agent_init w (the_agent key dfs) = Ok tt ->
  ask w key dfs sp q
  = ((setup_calls key dfs ++ trace (answer w (the_agent key dfs) sp q))%list,
     outcome (answer w (the_agent key dfs) sp q)).
Proof.
  intros H1 H2. unfold ask, extern, emit. fold (the_llm key). cbv zeta.
  fold (the_agent key dfs). rewrite H1. run_binds.
  rewrite H2. run_binds.
  destruct q as [| c q]; [reflexivity |].
  assert (Hq : String c q <> "") by discriminate.
  destruct (run w (the_agent key dfs) (final_query sp (String c q))) eqn:Hr.
  - now rewrite (answer_ok _ _ _ _ Hq Hr).
  - now rewrite (answer_raise _ _ _ _ Hq Hr).
  - now rewrite (answer_abort _ _ _ _ Hq Hr).
Qed.

End Asking.

(** ** One execution of the script, branch by branch *)

Section Execution.

Variable w : World.

Lemma main_no_key (inp : Inputs) :
  openai_api_key inp = "" ->
  main w inp
  = ((header_calls
      ++ [st_warning "Please enter your OpenAI API Key in the sidebar to proceed."])%list,
     Ok tt).
Proof.
  intros Hk. unfold main. rewrite page_header_eq, Hk. run_binds.
  simpl Py.truthy_str. rewrite andb_false_r. reflexivity.
Qed.

Lemma main_no_files (inp : Inputs) :
  openai_api_key inp <> "" ->
  uploaded_files inp = [] ->
  main w inp
  = ((header_calls ++ [st_info "Please upload your CSV files to start."])%list,
     Ok tt).
Proof.
  intros Hk Hf. unfold main. rewrite page_header_eq, Hf. run_binds.
  rewrite (truthy_str_true _ Hk). reflexivity.
Qed.

Lemma main_guard (inp : Inputs) :
  openai_api_key inp <> "" ->
  uploaded_files inp <> [] ->
  main w inp
  = (p <- (page_header ;; load_tables w (uploaded_files inp)) ;;
     ask w (openai_api_key inp) (fst p)
       (system_prompt (snd p) (fst p)) (user_question inp)).
Proof.
  intros Hk Hf. unfold main.
  rewrite (truthy_str_true _ Hk), (truthy_list_true _ Hf). simpl andb.
  rewrite page_header_eq. run_binds.
  destruct (load_tables w (uploaded_files inp)) as [t [p | e | b]];
    run_binds; unfold trace, outcome; cbn [fst]; cbn [snd]; run_binds;
    [| reflexivity | reflexivity].
  unfold trace, outcome.
  destruct (ask w (openai_api_key inp) (fst p)
              (system_prompt (snd p) (fst p)) (user_question inp)) as [t' r].
  cbn [fst snd]. now rewrite app_assoc.
Qed.

Lemma main_parse_error (inp : Inputs) (pre post : list UploadedFile)
    (bad : UploadedFile) (tables : list DataFrame) (e : Exn) :
  openai_api_key inp <> "" ->
  uploaded_files inp = (pre ++ bad :: post)%list ->
  parses w pre tables ->
  read_csv w bad = Raise e ->
  main w inp
  = ((header_calls
      ++ banner_calls (length (uploaded_files inp))
      ++ loop_calls (length (uploaded_files inp)) 0 pre tables
      ++ [pd_read_csv bad])%list,
     Raise e).
Proof.
  intros Hk Hf Hp Hb.
  rewrite main_guard; trivial; [| rewrite Hf; now destruct pre].
  rewrite Hf, page_header_eq. run_binds.
  rewrite (load_tables_fails w pre post bad tables e Hp Hb).
  unfold trace, outcome. cbn [fst snd]. run_binds. reflexivity.
Qed.

Lemma main_parse_abort (inp : Inputs) (pre post : list UploadedFile)
    (bad : UploadedFile) (tables : list DataFrame) (b : Exn) :
  openai_api_key inp <> "" ->
  uploaded_files inp = (pre ++ bad :: post)%list ->
  parses w pre tables ->
  read_csv w bad = Abort b ->
  main w inp
  = ((header_calls
      ++ banner_calls (length (uploaded_files inp))
      ++ loop_calls (length (uploaded_files inp)) 0 pre tables
      ++ [pd_read_csv bad])%list,
     Abort b).
Proof.
  intros Hk Hf Hp Hb.
  rewrite main_guard; trivial; [| rewrite Hf; now destruct pre].
  rewrite Hf, page_header_eq. run_binds.
  rewrite (load_tables_aborts w pre post bad tables b Hp Hb).
  unfold trace, outcome. cbn [fst snd]. run_binds. reflexivity.
Qed.

Lemma main_loaded (inp : Inputs) (dfs : list DataFrame) :
  openai_api_key inp <> "" ->
  uploaded_files inp <> [] ->
  parses w (uploaded_files inp) dfs ->
  let a := ask w (openai_api_key inp) dfs
             (system_prompt (map name (uploaded_files inp)) dfs)
             (user_question inp) in
  main w inp
  = ((header_calls
      ++ banner_calls (length (uploaded_files inp))
      ++ loop_calls (length (uploaded_files inp)) 0 (uploaded_files inp) dfs
      ++ trace a)%list,
     outcome a).
Proof.
  intros Hk Hf Hp a. rewrite main_guard; trivial.
  rewrite page_header_eq. run_binds.
  rewrite (load_tables_parses w _ _ Hf Hp).
  unfold trace, outcome. cbn [fst snd]. run_binds.
  unfold a, trace, outcome. cbn [fst snd].
  now rewrite <- !app_assoc.
Qed.

Lemma main_ready (inp : Inputs) (dfs : list DataFrame) :
  ready w inp dfs ->
  main w inp
  = ((ready_calls inp dfs
      ++ trace (answer w (the_agent (openai_api_key inp) dfs)
                  (system_prompt (map name (uploaded_files inp)) dfs)
                  (user_question inp)))%list,
     outcome (answer w (the_agent (openai_api_key inp) dfs)
                (system_prompt (map name (uploaded_files inp)) dfs)
                (user_question inp))).
Proof.
  intros [Hk Hf Hp Hl Ha]. rewrite (main_loaded inp dfs Hk Hf Hp). cbv zeta.
  rewrite (ask_ready w _ _ _ _ Hl Ha).
  unfold trace, outcome. cbn [fst snd].
  unfold ready_calls. now rewrite <- !app_assoc.
Qed.

Lemma agent_calls_ready (inp : Inputs) (dfs : list DataFrame) :
  agent_calls (ready_calls inp dfs) = [].
Proof.
  unfold ready_calls. rewrite !agent_calls_app, agent_calls_loop. reflexivity.
Qed.

Lemma main_ready_answered (inp : Inputs) (dfs : list DataFrame) (r : string) :
  ready w inp dfs ->
  user_question inp <> "" ->
  run w (the_agent (openai_api_key inp) dfs) (the_prompt inp dfs) = Ok r ->
  main w inp
  = ((ready_calls inp dfs
      ++ answered_calls (the_agent (openai_api_key inp) dfs)
           (the_prompt inp dfs) r)%list,
     Ok tt).
Proof.
  intros Hr Hq Hrun. rewrite (main_ready inp dfs Hr).
  unfold the_prompt in Hrun. now rewrite (answer_ok w _ _ _ _ Hq Hrun).
Qed.

Lemma main_ready_failed (inp : Inputs) (dfs : list DataFrame) (e : Exn) :
  ready w inp dfs ->
  user_question inp <> "" ->
  run w (the_agent (openai_api_key inp) dfs) (the_prompt inp dfs) = Raise e ->
  main w inp
  = ((ready_calls inp dfs
      ++ failed_calls (the_agent (openai_api_key inp) dfs)
           (the_prompt inp dfs) e)%list,
     Ok tt).
Proof.
  intros Hr Hq Hrun. rewrite (main_ready inp dfs Hr).
  unfold the_prompt in Hrun. now rewrite (answer_raise w _ _ _ _ Hq Hrun).
Qed.

Lemma main_ready_aborted (inp : Inputs) (dfs : list DataFrame) (b : Exn) :
  ready w inp dfs ->
  user_question inp <> "" ->
  run w (the_agent (openai_api_key inp) dfs) (the_prompt inp dfs) = Abort b ->
  main w inp
  = ((ready_calls inp dfs
      ++ [ st_spinner "Reading your CSVs and answering from the data...";
           agent_run (the_agent (openai_api_key inp) dfs) (the_prompt inp dfs) ])%list,
     Abort b).
Proof.
  intros Hr Hq Hrun. rewrite (main_ready inp dfs Hr).
  unfold the_prompt in Hrun. now rewrite (answer_abort w _ _ _ _ Hq Hrun).
Qed.

Lemma main_ready_idle (inp : Inputs) (dfs : list DataFrame) :
  ready w inp dfs ->
  user_question inp = "" ->
  main w inp = (ready_calls inp dfs, Ok tt).
Proof.
  intros Hr Hq. rewrite (main_ready inp dfs Hr), Hq, answer_empty.
  unfold trace. cbn [fst]. now rewrite app_nil_r.
Qed.

(** The calls of [agent.run] in a ready session: one when there is a
    question, none otherwise. *)
Lemma agent_calls_main_ready (inp : Inputs) (dfs : list DataFrame) :
  ready w inp dfs ->
  agent_calls (trace (main w inp))
  = if Py.truthy_str (user_question inp)
    then [agent_run (the_agent (openai_api_key inp) dfs) (the_prompt inp dfs)]
    else [].
Proof.
  intros Hr. destruct (user_question inp) as [| c q] eqn:Hq.
  - rewrite (main_ready_idle inp dfs Hr Hq). apply agent_calls_ready.
  - assert (Hne : user_question inp <> "") by (rewrite Hq; discriminate).
    simpl Py.truthy_str. cbv iota.
    destruct (run w (the_agent (openai_api_key inp) dfs) (the_prompt inp dfs))
      as [r | e | b] eqn:Hrun.
    + rewrite (main_ready_answered inp dfs r Hr Hne Hrun).
      unfold trace. cbn [fst]. rewrite agent_calls_app, agent_calls_ready.
      reflexivity.
    + rewrite (main_ready_failed inp dfs e Hr Hne Hrun).
      unfold trace. cbn [fst]. rewrite agent_calls_app, agent_calls_ready.
      reflexivity.
    + rewrite (main_ready_aborted inp dfs b Hr Hne Hrun).
      unfold trace. cbn [fst]. rewrite agent_calls_app, agent_calls_ready.
      reflexivity.
Qed.

End Execution.

(** ** Every execution takes one of the twelve branches *)

Lemma main_taken (w : World) (inp : Inputs) (path : Path) :
  taken w inp path -> main w inp = path_run inp path.
Proof.
  destruct path as [| | pre bad post tables e | dfs e | dfs e | dfs | dfs r
                   | dfs e | pre bad post tables b | dfs b | dfs b | dfs b];
    simpl taken; unfold path_run.
  - apply main_no_key.
  - intros [Hk Hf]. now apply main_no_files.
  - intros (Hk & Hf & Hp & Hb). now apply (main_parse_error w inp pre post).
  - intros (Hk & Hf & Hp & Hl).
    rewrite (main_loaded w inp dfs Hk Hf Hp). cbv zeta.
    rewrite (ask_llm_raises w _ _ _ _ e Hl).
    unfold trace, outcome, loaded_calls. cbn [fst snd].
    now rewrite <- !app_assoc.
  - intros (Hk & Hf & Hp & Hl & Ha).
    rewrite (main_loaded w inp dfs Hk Hf Hp). cbv zeta.
    rewrite (ask_agent_raises w _ _ _ _ e Hl Ha).
    unfold trace, outcome, loaded_calls. cbn [fst snd].
    now rewrite <- !app_assoc.
  - intros [Hr Hq]. now apply main_ready_idle.
  - intros (Hr & Hq & Hrun). now apply main_ready_answered.
  - intros (Hr & Hq & Hrun). now apply main_ready_failed.
  - intros (Hk & Hf & Hp & Hb). now apply (main_parse_abort w inp pre post).
  - intros (Hk & Hf & Hp & Hl).
    rewrite (main_loaded w inp dfs Hk Hf Hp). cbv zeta.
    rewrite (ask_llm_aborts w _ _ _ _ b Hl).
    unfold trace, outcome, loaded_calls. cbn [fst snd].
    now rewrite <- !app_assoc.
  - intros (Hk & Hf & Hp & Hl & Ha).
    rewrite (main_loaded w inp dfs Hk Hf Hp). cbv zeta.
    rewrite (ask_agent_aborts w _ _ _ _ b Hl Ha).
    unfold trace, outcome, loaded_calls. cbn [fst snd].
    now rewrite <- !app_assoc.
  - intros (Hr & Hq & Hrun). now apply main_ready_aborted.
Qed.

Lemma main_path (w : World) (inp : Inputs) : exists path, taken w inp path.
Proof.
  destruct (openai_api_key inp) as [| kc k] eqn:Hk.
  { now exists NoKey. }
  assert (Hkey : openai_api_key inp <> "") by (rewrite Hk; discriminate).
  destruct (uploaded_files inp) as [| f0 fs] eqn:Hf.
  { exists NoFiles. simpl. now rewrite Hk, Hf. }
  assert (Hfiles : uploaded_files inp <> []) by (rewrite Hf; discriminate).
  clear Hk Hf.
  destruct (parses_or_first_failure w (uploaded_files inp))
    as [[dfs Hp] | (pre & bad & post & tables & Hsplit & Hp & [[e Hb] | [b Hb]])].
  2:{ exists (ParseFailed pre bad post tables e). simpl. auto. }
  2:{ exists (ParseAborted pre bad post tables b). simpl. auto. }
  destruct (llm_init w (the_llm (openai_api_key inp))) as [[] | e | b] eqn:Hl.
  2:{ exists (LlmFailed dfs e). simpl. auto. }
  2:{ exists (LlmAborted dfs b). simpl. auto. }
  destruct (agent_init w (the_agent (openai_api_key inp) dfs))
    as [[] | e | b] eqn:Ha.
  2:{ exists (AgentFailed dfs e). simpl. auto. }
  2:{ exists (AgentAborted dfs b). simpl. auto. }
  assert (Hr : ready w inp dfs) by (constructor; assumption).
  destruct (user_question inp) as [| qc q] eqn:Hq.
  { exists (Idle dfs). simpl. now rewrite Hq. }
  assert (Hne : user_question inp <> "") by (rewrite Hq; discriminate).
  clear Hq.
  destruct (run w (the_agent (openai_api_key inp) dfs) (the_prompt inp dfs))
    as [r | e | b] eqn:Hrun.
  - exists (Answered dfs r). simpl. auto.
  - exists (Failed dfs e). simpl. auto.
  - exists (RunAborted dfs b). simpl. auto.
Qed.

(** A filter that lets neither [pd.read_csv] nor a column call through
    finds nothing in the loader loop. *)
Lemma filter_loop (p : Call -> bool) (ncols : nat) (files : list UploadedFile) :
  (forall f, p (pd_read_csv f) = false) ->
  (forall i c, p (st_column i c) = false) ->
  forall (tables : list DataFrame) (i : nat),
    filter p (loop_calls ncols i files tables) = [].
Proof.
  intros Hread Hcol.
  induction files as [| f files IH]; intros [| df tables] i; simpl; trivial.
  rewrite Hread, !Hcol. apply IH.
Qed.

Lemma files_read_app (t u : list Call) :
  files_read (t ++ u) = (files_read t ++ files_read u)%list.
Proof. apply flat_map_app. Qed.

Lemma files_read_loop (ncols : nat) (files : list UploadedFile) :
  forall (tables : list DataFrame) (i : nat),
    length tables = length files ->
    files_read (loop_calls ncols i files tables) = files.
Proof.
  induction files as [| f files IH]; intros [| df tables] i Hl;
    simpl in *; try discriminate; trivial.
  f_equal. apply IH. lia.
Qed.

(** What a trace lets through a filter that ignores the loader loop. *)
Ltac filter_path :=
  unfold path_run, trace, ready_calls, loaded_calls, agent_calls, banners;
  cbn [fst]; rewrite ?filter_app; rewrite ?filter_loop by reflexivity.

(** Outside a ready session with a question [agent.run] is never called. *)
Lemma agent_calls_main (w : World) (inp : Inputs) :
  agent_calls (trace (main w inp)) = []
  \/ exists dfs, ready w inp dfs /\ user_question inp <> ""
       /\ agent_calls (trace (main w inp))
          = [agent_run (the_agent (openai_api_key inp) dfs) (the_prompt inp dfs)].
Proof.
  destruct (main_path w inp) as [path Ht].
  rewrite (main_taken w inp path Ht).
  destruct path; simpl in Ht; filter_path;
    try (left; reflexivity);
    right; exists dfs; destruct Ht as (Hr & Hq & _);
    (split; [exact Hr | split; [exact Hq | reflexivity]]).
Qed.

(** ** Further facts used by the claims *)

Lemma parses_map (w : World) (files : list UploadedFile) (dfs : list DataFrame) :
  parses w files dfs <-> map (read_csv w) files = map Ok dfs.
Proof.
  split.
  - induction 1 as [| f df fs ts Hf _ IH]; simpl; [reflexivity |].
    now rewrite Hf, IH.
  - revert dfs. induction files as [| f fs IH]; intros [| df ts] H;
      simpl in H; try discriminate; [constructor |].
    injection H as Hf Hrest. constructor; [exact Hf | now apply IH].
Qed.

Lemma map_Ok_inj {A} (xs ys : list A) :
  map (@Ok A) xs = map (@Ok A) ys -> xs = ys.
Proof.
  revert ys. induction xs as [| x xs IH]; intros [| y ys] H;
    simpl in H; try discriminate; [reflexivity |].
  injection H as -> H. f_equal. now apply IH.
Qed.

Lemma in_agent_calls (a : Agent) (p : string) (t : list Call) :
  In (agent_run a p) t <-> In (agent_run a p) (agent_calls t).
Proof.
  unfold agent_calls. rewrite filter_In. simpl. tauto.
Qed.

Lemma shown_app (t u : list Call) :
  dataframes_shown (t ++ u)
  = (dataframes_shown t ++ dataframes_shown u)%list.
Proof. apply flat_map_app. Qed.

Lemma shown_ask (w : World) (key : string) (dfs : list DataFrame)
    (sp q : string) :
  dataframes_shown (trace (ask w key dfs sp q)) = [].
Proof.
  destruct (llm_init w (the_llm key)) as [[] | e | b] eqn:Hl.
  2:{ now rewrite (ask_llm_raises w _ _ _ _ e Hl). }
  2:{ now rewrite (ask_llm_aborts w _ _ _ _ b Hl). }
  destruct (agent_init w (the_agent key dfs)) as [[] | e | b] eqn:Ha.
  2:{ now rewrite (ask_agent_raises w _ _ _ _ e Hl Ha). }
  2:{ now rewrite (ask_agent_aborts w _ _ _ _ b Hl Ha). }
  rewrite (ask_ready w _ _ _ _ Hl Ha). unfold trace. cbn [fst].
  rewrite shown_app. change (dataframes_shown (setup_calls key dfs)) with (@nil DataFrame).
  destruct q as [| c q]; [reflexivity |].
  assert (Hq : String c q <> "") by discriminate.
  destruct (run w (the_agent key dfs) (final_query sp (String c q))) eqn:Hr.
  - now rewrite (answer_ok w _ _ _ _ Hq Hr).
  - now rewrite (answer_raise w _ _ _ _ Hq Hr).
  - now rewrite (answer_abort w _ _ _ _ Hq Hr).
Qed.

(** Whatever happens, the frames drawn are the three-row heads of the
    tables parsed so far. *)
Lemma shown_main (w : World) (inp : Inputs) :
  exists tables, dataframes_shown (trace (main w inp)) = map (head 3) tables.
Proof.
  destruct (openai_api_key inp) as [| kc k] eqn:Hk.
  { exists []. now rewrite (main_no_key w inp Hk). }
  assert (Hkey : openai_api_key inp <> "") by (rewrite Hk; discriminate).
  clear Hk.
  destruct (uploaded_files inp) as [| f0 fs] eqn:Hf.
  { exists []. now rewrite (main_no_files w inp Hkey Hf). }
  assert (Hfiles : uploaded_files inp <> []) by (rewrite Hf; discriminate).
  clear Hf.
  destruct (parses_or_first_failure w (uploaded_files inp))
    as [[dfs Hp] | (pre & bad & post & tables & Hsplit & Hp & [[e Hb] | [b Hb]])].
  - exists dfs. rewrite (main_loaded w inp dfs Hkey Hfiles Hp). cbv zeta.
    unfold trace at 1. cbn [fst].
    rewrite !shown_app, shown_ask, app_nil_r.
    rewrite (shown_loop _ _ _ _ (parses_length w _ _ Hp)). reflexivity.
  - exists tables.
    rewrite (main_parse_error w inp pre post bad tables e Hkey Hsplit Hp Hb).
    unfold trace. cbn [fst].
    rewrite !shown_app.
    rewrite (shown_loop _ _ _ _ (parses_length w _ _ Hp)).
    simpl. now rewrite app_nil_r.
  - exists tables.
    rewrite (main_parse_abort w inp pre post bad tables b Hkey Hsplit Hp Hb).
    unfold trace. cbn [fst].
    rewrite !shown_app.
    rewrite (shown_loop _ _ _ _ (parses_length w _ _ Hp)).
    simpl. now rewrite app_nil_r.
Qed.

Lemma demo_ready_answering : ready Demo.answering Demo.session Demo.tables.
Proof.
  constructor; try discriminate; try reflexivity.
  repeat constructor.
Qed.


(** ** The claims *)






(** C9.  With an empty key and no uploaded file, the page ends on the
    API-key warning and the upload prompt is not shown. *)
Theorem C9_key_warning_first (w : World) (inp : Inputs) :
  openai_api_key inp = "" ->
  uploaded_files inp = [] ->
  trace (main w inp)
  = (header_calls
     ++ [st_warning "Please enter your OpenAI API Key in the sidebar to proceed."])%list
  /\ ~ In (st_info "Please upload your CSV files to start.") (trace (main w inp)).
Proof.
  intros Hk _. rewrite (main_no_key w inp Hk). split; [reflexivity |].
  unfold trace. cbn [fst]. intros Hin. apply in_app_or in Hin.
  destruct Hin as [Hin | [Hin | []]]; [| discriminate].
  unfold header_calls in Hin. simpl in Hin.
  repeat (destruct Hin as [Hin | Hin]; [discriminate |]). exact Hin.
Qed.

(** C9 at work on a session where nothing has been entered. *)
Lemma C9_key_warning_first_witness :
  trace (main Demo.answering Demo.fresh)
  = (header_calls
     ++ [st_warning "Please enter your OpenAI API Key in the sidebar to proceed."])%list
  /\ ~ In (st_info "Please upload your CSV files to start.")
          (trace (main Demo.answering Demo.fresh)).
Proof.
  apply (C9_key_warning_first Demo.answering Demo.fresh); reflexivity.
Defined.

(** C10.  In a ready session the test on the question is truthiness of the
    string: every question other than the empty string, one made of
    spaces included, leads to exactly one call of [agent.run], with the
    question at the end of the prompt; the empty string leads to none. *)
Theorem C10_question_truthiness (w : World) (inp : Inputs)
    (dfs : list DataFrame) :
  ready w inp dfs ->
  (user_question inp <> "" ->
   agent_calls (trace (main w inp))
   = [agent_run (the_agent (openai_api_key inp) dfs)
        (final_query (system_prompt (map name (uploaded_files inp)) dfs)
           (user_question inp))])
  /\ (user_question inp = "" -> agent_calls (trace (main w inp)) = []).
Proof.
  intros Hr. rewrite (agent_calls_main_ready w inp dfs Hr). split.
  - intros Hq. now rewrite (truthy_str_true _ Hq).
  - intros ->. reflexivity.
Qed.

(** C10 at work on a question of three spaces. *)
Lemma C10_question_truthiness_witness :
  agent_calls (trace (main Demo.answering Demo.blank_question))
  = [agent_run (the_agent "sk-test" Demo.tables)
       (final_query (system_prompt ["sales.csv"; "faq.csv"] Demo.tables) "   ")].
Proof.
  apply (C10_question_truthiness Demo.answering Demo.blank_question Demo.tables).
  - constructor; try discriminate; try reflexivity. repeat constructor.
  - discriminate.
Defined.

(** C2, as worded: the prompt would carry the line "Now answer this
    question using the tables only:".  In the demo session the one prompt
    sent is a different string. *)
Lemma C2_prompt_line_counterexample :
  exists a p,
    agent_calls (trace (main Demo.answering Demo.session)) = [agent_run a p]
    /\ p <> spec_final_query
              (policy_text
                 (df_summary_text ["sales.csv"; "faq.csv"] Demo.tables))
              "what is the return policy".
Proof.
  eexists. eexists. split.
  - rewrite (agent_calls_main_ready _ _ _ demo_ready_answering). reflexivity.
  - apply String.eqb_neq. vm_compute. reflexivity.
Qed.

(** C2, amended.  In a ready session a non-empty question triggers exactly
    one call of [agent.run]; its prompt is the fixed policy text with the
    summary block inside it, then two newlines and the line "Now answer
    this question using the DataFrames only:" with its newline, then the
    question as typed, last. *)
Theorem C2_prompt_composition (w : World) (inp : Inputs)
    (dfs : list DataFrame) :
  ready w inp dfs ->
  user_question inp <> "" ->
  agent_calls (trace (main w inp))
  = [agent_run (the_agent (openai_api_key inp) dfs)
       (policy_text (df_summary_text (map name (uploaded_files inp)) dfs)
        ++ Py.nl ++ Py.nl
        ++ "Now answer this question using the DataFrames only:" ++ Py.nl
        ++ user_question inp)].
Proof.
  intros Hr Hq. rewrite (agent_calls_main_ready w inp dfs Hr).
  rewrite (truthy_str_true _ Hq).
  unfold the_prompt, final_query. now rewrite system_prompt_policy.
Qed.

(** C2 at work on the demo session: two summary lines, then the question. *)
Lemma C2_prompt_composition_witness :
  agent_calls (trace (main Demo.answering Demo.session))
  = [agent_run (the_agent "sk-test" Demo.tables)
       (policy_text
          (Py.join Py.nl
             [ "- File: 'sales.csv' | Columns: Date, Region, Amount";
               "- File: 'faq.csv' | Columns: Question, Answer" ])
        ++ Py.nl ++ Py.nl
        ++ "Now answer this question using the DataFrames only:" ++ Py.nl
        ++ "what is the return policy")].
Proof.
  apply (C2_prompt_composition Demo.answering Demo.session Demo.tables).
  - constructor; try discriminate; try reflexivity. repeat constructor.
  - discriminate.
Defined.

(** C3, as worded: each well-formed file of the three would get its
    preview.  With the malformed file in the middle the run ends on the
    parser's exception and the third file is never drawn. *)
Lemma C3_loader_isolation_counterexample :
  outcome (main Demo.answering Demo.with_broken) = Raise Demo.tokenizing_error
  /\ dataframes_shown (trace (main Demo.answering Demo.with_broken))
     = [head 3 Demo.sales_df]
  /\ ~ previews_all_wellformed Demo.answering
         [Demo.sales_csv; Demo.broken_csv; Demo.faq_csv].
Proof.
  split; [reflexivity |]. split; [reflexivity |].
  intros H. specialize (H Demo.faq_csv Demo.faq_df).
  assert (Hin : In (head 3 Demo.faq_df) [head 3 Demo.sales_df]).
  { apply H; [simpl; tauto | reflexivity]. }
  destruct Hin as [Heq | []]. discriminate Heq.
Qed.

(** C3, amended.  When a file fails to parse, the parser's exception
    leaves the script uncaught: the run ends with that exception, the only
    previews drawn are those of the files before it, and what follows the
    failing [pd.read_csv] (later files, the agent, any banner) is never
    reached. *)
Theorem C3_parse_error_propagates (w : World) (inp : Inputs)
    (pre post : list UploadedFile) (bad : UploadedFile)
    (tables : list DataFrame) (e : Exn) :
  openai_api_key inp <> "" ->
  uploaded_files inp = (pre ++ bad :: post)%list ->
  parses w pre tables ->
  read_csv w bad = Raise e ->
  outcome (main w inp) = Raise e
  /\ trace (main w inp)
     = (header_calls
        ++ banner_calls (length (uploaded_files inp))
        ++ loop_calls (length (uploaded_files inp)) 0 pre tables
        ++ [pd_read_csv bad])%list
  /\ dataframes_shown (trace (main w inp)) = map (head 3) tables
  /\ agent_calls (trace (main w inp)) = [].
Proof.
  intros Hk Hf Hp Hb.
  rewrite (main_parse_error w inp pre post bad tables e Hk Hf Hp Hb).
  unfold trace, outcome. cbn [fst snd].
  split; [reflexivity |]. split; [reflexivity |]. split.
  - rewrite !shown_app, (shown_loop _ _ _ _ (parses_length w _ _ Hp)).
    simpl. now rewrite app_nil_r.
  - rewrite !agent_calls_app, agent_calls_loop. reflexivity.
Qed.

(** C3 at work: the malformed file second of three. *)
Lemma C3_parse_error_propagates_witness :
  outcome (main Demo.answering Demo.with_broken) = Raise Demo.tokenizing_error
  /\ trace (main Demo.answering Demo.with_broken)
     = (header_calls
        ++ banner_calls 3
        ++ loop_calls 3 0 [Demo.sales_csv] [Demo.sales_df]
        ++ [pd_read_csv Demo.broken_csv])%list
  /\ dataframes_shown (trace (main Demo.answering Demo.with_broken))
     = [head 3 Demo.sales_df]
  /\ agent_calls (trace (main Demo.answering Demo.with_broken)) = [].
Proof.
  apply (C3_parse_error_propagates Demo.answering Demo.with_broken
           [Demo.sales_csv] [Demo.faq_csv] Demo.broken_csv [Demo.sales_df]
           Demo.tokenizing_error).
  - discriminate.
  - reflexivity.
  - repeat constructor.
  - reflexivity.
Defined.

(** C4.  The column list of a table's summary is the table's whole column
    sequence when it has at most 15 columns, and exactly its first 15
    columns, in their order, when it has more; the summary line is built
    from that list. *)
Theorem C4_summary_columns (df_name : string) (df : DataFrame) :
  (length (columns df) <= 15 -> cols_sample df = columns df)
  /\ (15 < length (columns df) ->
      cols_sample df = firstn 15 (columns df)
      /\ length (cols_sample df) = 15
      /\ exists rest, columns df = (cols_sample df ++ rest)%list)
  /\ summary_line df_name df
     = "- File: '" ++ df_name ++ "' | Columns: "
       ++ Py.join ", " (cols_sample df).
Proof.
  split; [| split; [| reflexivity]];
    unfold cols_sample; change (map str) with (map (fun c : string => c));
    rewrite map_id.
  - intros Hle. now apply firstn_all2.
  - intros Hlt. split; [reflexivity |]. split.
    + rewrite length_firstn. lia.
    + exists (skipn 15 (columns df)). symmetry. apply firstn_skipn.
Qed.

(** C4 at work on a table of seventeen columns. *)
Lemma C4_summary_columns_witness :
  cols_sample Demo.wide_df
  = ["c01"; "c02"; "c03"; "c04"; "c05"; "c06"; "c07"; "c08"; "c09";
     "c10"; "c11"; "c12"; "c13"; "c14"; "c15"]
  /\ length (cols_sample Demo.wide_df) = 15
  /\ exists rest, columns Demo.wide_df = (cols_sample Demo.wide_df ++ rest)%list.
Proof.
  apply (C4_summary_columns "wide.csv" Demo.wide_df). simpl. lia.
Defined.

(** C5.  The prompt is a function of the tables and the question alone:
    two executions of the script over the same named tables and the same
    question send the same prompt, whatever the key and whatever the
    agent and the constructors do in each. *)
Theorem C5_prompt_deterministic (w1 w2 : World) (inp1 inp2 : Inputs)
    (a1 a2 : Agent) (p1 p2 : string) :
  map name (uploaded_files inp1) = map name (uploaded_files inp2) ->
  map (read_csv w1) (uploaded_files inp1)
  = map (read_csv w2) (uploaded_files inp2) ->
  user_question inp1 = user_question inp2 ->
  In (agent_run a1 p1) (trace (main w1 inp1)) ->
  In (agent_run a2 p2) (trace (main w2 inp2)) ->
  p1 = p2.
Proof.
  intros Hn Ht Hq H1 H2.
  apply in_agent_calls in H1. apply in_agent_calls in H2.
  destruct (agent_calls_main w1 inp1) as [E1 | (d1 & R1 & _ & E1)];
    rewrite E1 in H1; [contradiction |].
  destruct (agent_calls_main w2 inp2) as [E2 | (d2 & R2 & _ & E2)];
    rewrite E2 in H2; [contradiction |].
  destruct H1 as [H1 | []]. destruct H2 as [H2 | []].
  injection H1 as _ <-. injection H2 as _ <-.
  assert (Hd : d1 = d2).
  { apply map_Ok_inj.
    rewrite <- (proj1 (parses_map _ _ _) (ready_parse _ _ _ R1)).
    rewrite <- (proj1 (parses_map _ _ _) (ready_parse _ _ _ R2)).
    exact Ht. }
  unfold the_prompt. now rewrite Hn, Hq, Hd.
Qed.

(** C5 at work: the demo session under two keys, once with an agent that
    answers and once with one that fails. *)
Lemma C5_prompt_deterministic_witness :
  the_prompt Demo.session Demo.tables = the_prompt Demo.session' Demo.tables.
Proof.
  apply (C5_prompt_deterministic Demo.answering Demo.failing
           Demo.session Demo.session'
           (the_agent "sk-test" Demo.tables) (the_agent "sk-other" Demo.tables));
    try reflexivity.
  - apply in_agent_calls. vm_compute. left. reflexivity.
  - apply in_agent_calls. vm_compute. left. reflexivity.
Defined.

(** C6.  In a ready session with a question, when [agent.run] raises, the
    script does not crash: it ends normally, its last call is the error
    banner carrying the exception's text, the question field has been
    drawn, and executing the script again on the same inputs calls the
    agent again and shows its answer if it now returns one. *)
Theorem C6_agent_error_caught (w : World) (inp : Inputs)
    (dfs : list DataFrame) (e : Exn) :
  ready w inp dfs ->
  user_question inp <> "" ->
  run w (the_agent (openai_api_key inp) dfs) (the_prompt inp dfs) = Raise e ->
  outcome (main w inp) = Ok tt
  /\ trace (main w inp)
     = (ready_calls inp dfs
        ++ [ st_spinner "Reading your CSVs and answering from the data...";
             agent_run (the_agent (openai_api_key inp) dfs) (the_prompt inp dfs);
             st_error ("Error while answering: " ++ e) ])%list
  /\ In (st_text_input
           "Example: 'what is the return policy', 'total sales for 2023', 'show all delayed shipments'"
           false None)
        (trace (main w inp))
  /\ (forall w' r,
        read_csv w' = read_csv w ->
        llm_init w' = llm_init w ->
        agent_init w' = agent_init w ->
        run w' (the_agent (openai_api_key inp) dfs) (the_prompt inp dfs) = Ok r ->
        main w' inp
        = ((ready_calls inp dfs
            ++ answered_calls (the_agent (openai_api_key inp) dfs)
                 (the_prompt inp dfs) r)%list,
           Ok tt)).
Proof.
  intros Hr Hq Hrun. rewrite (main_ready_failed w inp dfs e Hr Hq Hrun).
  unfold trace, outcome. cbn [fst snd].
  split; [reflexivity |]. split; [reflexivity |]. split.
  - apply in_or_app. left. unfold ready_calls.
    apply in_or_app. right. apply in_or_app. right. apply in_or_app. right.
    simpl. tauto.
  - intros w' r Hc Hl Ha Hrun'.
    apply main_ready_answered; trivial.
    destruct Hr as [Hk Hf Hp Hli Hai].
    constructor; trivial.
    + unfold parses in *. now rewrite Hc.
    + now rewrite Hl.
    + now rewrite Ha.
Qed.

(** C6 at work: the agent answers every prompt with a rate-limit error. *)
Lemma C6_agent_error_caught_witness :
  outcome (main Demo.failing Demo.session) = Ok tt
  /\ trace (main Demo.failing Demo.session)
     = (ready_calls Demo.session Demo.tables
        ++ [ st_spinner "Reading your CSVs and answering from the data...";
             agent_run (the_agent "sk-test" Demo.tables)
               (the_prompt Demo.session Demo.tables);
             st_error "Error while answering: Rate limit reached" ])%list.
Proof.
  destruct (C6_agent_error_caught Demo.failing Demo.session Demo.tables
              "Rate limit reached")
    as (H1 & H2 & _).
  - constructor; try discriminate; try reflexivity. repeat constructor.
  - discriminate.
  - reflexivity.
  - split; [exact H1 | exact H2].
Defined.

(** C8.  Every frame the script draws has at most 3 rows, and when the
    files all parse the frames drawn are the three-row heads of the loaded
    tables, one per table; when [agent.run] returns, the script ends on
    the success banner, the response heading and the response text; when
    it raises, the script ends on an error banner carrying the exception's
    text. *)
Theorem C8_output_surface (w : World) (inp : Inputs) :
  Forall (fun df => length (rows df) <= 3)
         (dataframes_shown (trace (main w inp)))
  /\ (forall dfs,
        openai_api_key inp <> "" -> uploaded_files inp <> [] ->
        parses w (uploaded_files inp) dfs ->
        dataframes_shown (trace (main w inp)) = map (head 3) dfs)
  /\ (forall dfs r,
        ready w inp dfs -> user_question inp <> "" ->
        run w (the_agent (openai_api_key inp) dfs) (the_prompt inp dfs) = Ok r ->
        exists t,
          trace (main w inp)
          = (t ++ [ st_success "Analysis complete!";
                    st_write "### AI Response:";
                    st_markdown r ])%list)
  /\ (forall dfs e,
        ready w inp dfs -> user_question inp <> "" ->
        run w (the_agent (openai_api_key inp) dfs) (the_prompt inp dfs) = Raise e ->
        exists t,
          trace (main w inp)
          = (t ++ [ st_error ("Error while answering: " ++ e) ])%list).
Proof.
  split; [| split; [| split]].
  - destruct (shown_main w inp) as [tables ->].
    apply Forall_forall. intros df Hin. apply in_map_iff in Hin.
    destruct Hin as (d & <- & _). unfold head. cbn [rows].
    rewrite length_firstn. lia.
  - intros dfs Hk Hf Hp. rewrite (main_loaded w inp dfs Hk Hf Hp). cbv zeta.
    unfold trace at 1. cbn [fst].
    rewrite !shown_app, shown_ask, app_nil_r.
    now rewrite (shown_loop _ _ _ _ (parses_length w _ _ Hp)).
  - intros dfs r Hr Hq Hrun.
    rewrite (main_ready_answered w inp dfs r Hr Hq Hrun).
    exists (ready_calls inp dfs
            ++ [ st_spinner "Reading your CSVs and answering from the data...";
                 agent_run (the_agent (openai_api_key inp) dfs)
                   (the_prompt inp dfs) ])%list.
    unfold trace. cbn [fst]. now rewrite <- app_assoc.
  - intros dfs e Hr Hq Hrun.
    rewrite (main_ready_failed w inp dfs e Hr Hq Hrun).
    exists (ready_calls inp dfs
            ++ [ st_spinner "Reading your CSVs and answering from the data...";
                 agent_run (the_agent (openai_api_key inp) dfs)
                   (the_prompt inp dfs) ])%list.
    unfold trace. cbn [fst]. now rewrite <- app_assoc.
Qed.

(** C8 at work: the sales table has four rows and three are drawn. *)
Lemma C8_output_surface_witness :
  dataframes_shown (trace (main Demo.answering Demo.session))
  = [ mkDF ["Date"; "Region"; "Amount"]
           [ ["2023-01-05"; "North"; "120"];
             ["2023-01-09"; "South"; "80"];
             ["2023-02-11"; "North"; "45"] ];
      Demo.faq_df ]
  /\ exists t,
       trace (main Demo.answering Demo.session)
       = (t ++ [ st_success "Analysis complete!";
                 st_write "### AI Response:";
                 st_markdown Demo.reply ])%list.
Proof.
  destruct (C8_output_surface Demo.answering Demo.session) as (_ & H2 & H3 & _).
  split.
  - apply (H2 Demo.tables); try discriminate. repeat constructor.
  - apply (H3 Demo.tables Demo.reply); try discriminate; try reflexivity.
    constructor; try discriminate; try reflexivity. repeat constructor.
Defined.

(** ** Further properties of the script *)

(** X1.  When the files parse and [ChatOpenAI(...)] raises, the outer
    [except] turns the exception into the banner "Error initializing the
    AI agent: ..." and the run ends normally: the agent is not built, the
    question field is not drawn and [agent.run] is not called, even if a
    question is pending. *)
Theorem X1_llm_constructor_error (w : World) (inp : Inputs)
    (dfs : list DataFrame) (e : Exn) :
  openai_api_key inp <> "" ->
  uploaded_files inp <> [] ->
  parses w (uploaded_files inp) dfs ->
  llm_init w (the_llm (openai_api_key inp)) = Raise e ->
  main w inp
  = ((loaded_calls inp dfs
      ++ [ ChatOpenAI (the_llm (openai_api_key inp));
           st_error ("Error initializing the AI agent: " ++ e) ])%list,
     Ok tt)
  /\ filter is_constructor (trace (main w inp))
     = [ChatOpenAI (the_llm (openai_api_key inp))]
  /\ filter is_question_field (trace (main w inp)) = []
  /\ agent_calls (trace (main w inp)) = [].
Proof.
  intros Hk Hf Hp Hl.
  rewrite (main_taken w inp (LlmFailed dfs e)) by (simpl; auto).
  unfold path_run, trace, loaded_calls. cbn [fst].
  split; [reflexivity |].
  unfold agent_calls. rewrite !filter_app.
  rewrite !filter_loop by reflexivity.
  repeat split; reflexivity.
Qed.

(** X1 at work: the constructor rejects the key of the demo session. *)
Lemma X1_llm_constructor_error_witness :
  main Demo.rejecting Demo.session
  = ((loaded_calls Demo.session Demo.tables
      ++ [ ChatOpenAI (the_llm "sk-test");
           st_error "Error initializing the AI agent: Incorrect API key provided" ])%list,
     Ok tt).
Proof.
  apply (X1_llm_constructor_error Demo.rejecting Demo.session Demo.tables
           "Incorrect API key provided").
  - discriminate.
  - discriminate.
  - repeat constructor.
  - reflexivity.
Defined.

(** X2.  When the files parse, [ChatOpenAI(...)] returns and
    [create_pandas_dataframe_agent(...)] raises, the same banner is shown
    with that exception's text and the run ends normally, with no question
    field and no call of [agent.run]. *)
Theorem X2_agent_constructor_error (w : World) (inp : Inputs)
    (dfs : list DataFrame) (e : Exn) :
  openai_api_key inp <> "" ->
  uploaded_files inp <> [] ->
  parses w (uploaded_files inp) dfs ->
  llm_init w (the_llm (openai_api_key inp)) = Ok tt ->
  agent_init w (the_agent (openai_api_key inp) dfs) = Raise e ->
  main w inp
  = ((loaded_calls inp dfs
      ++ [ ChatOpenAI (the_llm (openai_api_key inp));
           create_pandas_dataframe_agent (the_agent (openai_api_key inp) dfs);
           st_error ("Error initializing the AI agent: " ++ e) ])%list,
     Ok tt)
  /\ filter is_question_field (trace (main w inp)) = []
  /\ agent_calls (trace (main w inp)) = [].
Proof.
  intros Hk Hf Hp Hl Ha.
  rewrite (main_taken w inp (AgentFailed dfs e)) by (simpl; auto).
  unfold path_run, trace, loaded_calls. cbn [fst].
  split; [reflexivity |].
  unfold agent_calls. rewrite !filter_app.
  rewrite !filter_loop by reflexivity.
  split; reflexivity.
Qed.

Lemma X2_agent_constructor_error_witness :
  main Demo.unbuildable Demo.session
  = ((loaded_calls Demo.session Demo.tables
      ++ [ ChatOpenAI (the_llm "sk-test");
           create_pandas_dataframe_agent (the_agent "sk-test" Demo.tables);
           st_error "Error initializing the AI agent: tabulate is not installed" ])%list,
     Ok tt).
Proof.
  apply (X2_agent_constructor_error Demo.unbuildable Demo.session Demo.tables
           "tabulate is not installed").
  - discriminate.
  - discriminate.
  - repeat constructor.
  - reflexivity.
  - reflexivity.
Defined.


(** X4.  No execution of the script calls [agent.run] more than once. *)
Theorem X4_at_most_one_agent_call (w : World) (inp : Inputs) :
  length (agent_calls (trace (main w inp))) <= 1.
Proof.
  destruct (agent_calls_main w inp) as [-> | (dfs & _ & _ & ->)]; simpl; lia.
Qed.

Lemma string_app_nil_r (s : string) : s ++ "" = s.
Proof. induction s as [| c s IH]; simpl; [reflexivity | now rewrite IH]. Qed.

(** An element of a joined list is a substring of the result. *)
Lemma join_contains (sep x : string) (xs : list string) :
  In x xs -> exists a b, Py.join sep xs = a ++ x ++ b.
Proof.
  induction xs as [| y xs IH]; [intros [] |].
  destruct xs as [| z xs].
  - intros [-> | []]. exists "", "". simpl. now rewrite string_app_nil_r.
  - intros [-> | Hin].
    + exists "", (sep ++ Py.join sep (z :: xs)). reflexivity.
    + destruct (IH Hin) as (a & b & E).
      exists (y ++ sep ++ a), b.
      change (Py.join sep (y :: z :: xs))
        with (y ++ sep ++ Py.join sep (z :: xs)).
      rewrite E. now rewrite !string_app_assoc.
Qed.

Lemma nth_error_combine {A B} (xs : list A) :
  forall (ys : list B) k x y,
    nth_error xs k = Some x -> nth_error ys k = Some y ->
    nth_error (combine xs ys) k = Some (x, y).
Proof.
  induction xs as [| x0 xs IH]; intros [| y0 ys] [| k] x y Hx Hy;
    simpl in *; try discriminate.
  - now injection Hx as ->; injection Hy as ->.
  - now apply IH.
Qed.

Lemma nth_error_summaries (files : list UploadedFile) (dfs : list DataFrame)
    (k : nat) (f : UploadedFile) (df : DataFrame) :
  nth_error files k = Some f ->
  nth_error dfs k = Some df ->
  nth_error (summaries (map name files) dfs) k
  = Some (summary_line (name f) df).
Proof.
  intros Hf Hd. unfold summaries.
  apply (map_nth_error (fun p => summary_line (fst p) (snd p)) k
           (combine (map name files) dfs) (d := (name f, df))).
  apply nth_error_combine; [| exact Hd].
  now apply map_nth_error.
Qed.

Lemma has_char_app (c : ascii) (a b : string) :
  Py.has_char c (a ++ b) = Py.has_char c a || Py.has_char c b.
Proof.
  induction a as [| x a IH]; simpl; [reflexivity |].
  now rewrite IH, orb_assoc.
Qed.

Lemma split_on_plain (c : ascii) (s : string) :
  Py.has_char c s = false -> Py.split_on c s = [s].
Proof.
  induction s as [| a s IH]; simpl; [reflexivity |].
  intros H. apply orb_false_iff in H. destruct H as [Ha Hs].
  now rewrite Ha, (IH Hs).
Qed.

Lemma split_on_app (c : ascii) (a b : string) :
  Py.has_char c a = false ->
  Py.split_on c (a ++ String c b) = a :: Py.split_on c b.
Proof.
  induction a as [| x a IH]; simpl.
  - intros _. now rewrite Ascii.eqb_refl.
  - intros H. apply orb_false_iff in H. destruct H as [Hx Ha].
    now rewrite Hx, (IH Ha).
Qed.

(** Splitting undoes joining when no element holds the separator. *)
Lemma split_join (c : ascii) (xs : list string) :
  xs <> [] ->
  (forall x, In x xs -> Py.has_char c x = false) ->
  Py.split_on c (Py.join (String c EmptyString) xs) = xs.
Proof.
  induction xs as [| x xs IH]; [congruence |]. intros _ Hall.
  destruct xs as [| y xs].
  - simpl. apply split_on_plain. apply Hall. now left.
  - change (Py.join (String c EmptyString) (x :: y :: xs))
      with (x ++ String c (Py.join (String c EmptyString) (y :: xs))).
    rewrite split_on_app by (apply Hall; now left).
    f_equal. apply IH; [discriminate |].
    intros z Hz. apply Hall. now right.
Qed.

Lemma has_char_join (c : ascii) (sep : string) (xs : list string) :
  Py.has_char c sep = false ->
  (forall x, In x xs -> Py.has_char c x = false) ->
  Py.has_char c (Py.join sep xs) = false.
Proof.
  intros Hsep. induction xs as [| x xs IH]; intros Hall; [reflexivity |].
  destruct xs as [| y xs].
  - apply Hall. now left.
  - change (Py.join sep (x :: y :: xs)) with (x ++ sep ++ Py.join sep (y :: xs)).
    rewrite !has_char_app, Hsep, (Hall x) by now left.
    simpl. apply IH. intros z Hz. apply Hall. now right.
Qed.

Lemma summary_line_one_line (df_name : string) (df : DataFrame) :
  Py.has_char Py.newline df_name = false ->
  (forall c, In c (cols_sample df) -> Py.has_char Py.newline c = false) ->
  Py.has_char Py.newline (summary_line df_name df) = false.
Proof.
  intros Hn Hc. unfold summary_line.
  assert (Hsep : Py.has_char Py.newline ", " = false) by reflexivity.
  rewrite !has_char_app, Hn, (has_char_join _ _ _ Hsep Hc). reflexivity.
Qed.

(** X5.  When at least one file is uploaded, the files parse, and no file
    name and no column label among the first 15 of a table holds a line
    break, splitting the summary block on line breaks gives back exactly
    one line per loaded table, in upload order, the k-th being "- File:
    '<name>' | Columns: <labels joined by ', '>" for the k-th file. *)
Theorem X5_summary_block_one_line_per_table (w : World)
    (files : list UploadedFile) (dfs : list DataFrame) :
  files <> [] ->
  parses w files dfs ->
  (forall f, In f files -> Py.has_char Py.newline (name f) = false) ->
  (forall df c, In df dfs -> In c (cols_sample df) ->
                Py.has_char Py.newline c = false) ->
  Py.split_on Py.newline (df_summary_text (map name files) dfs)
  = map (fun p => "- File: '" ++ name (fst p) ++ "' | Columns: "
                  ++ Py.join ", " (cols_sample (snd p)))
        (combine files dfs)
  /\ length (Py.split_on Py.newline (df_summary_text (map name files) dfs))
     = length files.
Proof.
  intros Hne Hp Hnames Hcols.
  assert (Hlines : summaries (map name files) dfs
                   = map (fun p => summary_line (name (fst p)) (snd p))
                         (combine files dfs)).
  { unfold summaries. clear. revert dfs.
    induction files as [| f files IH]; intros [| df dfs]; simpl; trivial.
    now rewrite IH. }
  assert (Hlen : length (summaries (map name files) dfs) = length files).
  { unfold summaries. rewrite length_map, length_combine, length_map.
    rewrite (parses_length w _ _ Hp). lia. }
  assert (Hsplit : Py.split_on Py.newline (df_summary_text (map name files) dfs)
                   = summaries (map name files) dfs).
  { unfold df_summary_text. apply (split_join Py.newline).
    - intros E. rewrite E in Hlen. simpl in Hlen.
      destruct files; [congruence | discriminate].
    - intros x Hx. rewrite Hlines in Hx. apply in_map_iff in Hx.
      destruct Hx as ([f df] & <- & Hin). simpl.
      apply summary_line_one_line.
      + apply Hnames. exact (in_combine_l _ _ _ _ Hin).
      + intros c Hc. apply (Hcols df c); trivial.
        exact (in_combine_r _ _ _ _ Hin). }
  rewrite Hsplit. split; [exact Hlines | exact Hlen].
Qed.

Lemma X5_summary_block_one_line_per_table_witness :
  Py.split_on Py.newline (df_summary_text ["sales.csv"; "faq.csv"] Demo.tables)
  = [ "- File: 'sales.csv' | Columns: Date, Region, Amount";
      "- File: 'faq.csv' | Columns: Question, Answer" ]
  /\ length (Py.split_on Py.newline
               (df_summary_text ["sales.csv"; "faq.csv"] Demo.tables))
     = 2.
Proof.
  apply (X5_summary_block_one_line_per_table Demo.answering
           [Demo.sales_csv; Demo.faq_csv] Demo.tables).
  - discriminate.
  - repeat constructor.
  - intros f [<- | [<- | []]]; reflexivity.
  - intros df c [<- | [<- | []]] Hc; simpl in Hc;
      repeat (destruct Hc as [<- | Hc]; [reflexivity |]); contradiction.
Defined.

(** X6.  The prompt sent to the agent contains, verbatim, the summary
    line of every loaded table: file names and column labels go into the
    prompt as they are, with no escaping. *)
Theorem X6_prompt_contains_every_summary_line (inp : Inputs)
    (dfs : list DataFrame) (k : nat) (f : UploadedFile) (df : DataFrame) :
  nth_error (uploaded_files inp) k = Some f ->
  nth_error dfs k = Some df ->
  exists before after,
    the_prompt inp dfs
    = before
      ++ ("- File: '" ++ name f ++ "' | Columns: "
          ++ Py.join ", " (cols_sample df))
      ++ after.
Proof.
  intros Hf Hd.
  pose proof (nth_error_summaries _ _ _ _ _ Hf Hd) as Hn.
  apply nth_error_In in Hn.
  destruct (join_contains Py.nl _ _ Hn) as (a & b & E).
  unfold the_prompt, final_query. rewrite system_prompt_policy.
  unfold policy_text, df_summary_text. rewrite E.
  fold (summary_line (name f) df).
  exists (policy_head ++ a).
  eexists. rewrite !string_app_assoc. reflexivity.
Qed.

Lemma X6_prompt_contains_every_summary_line_witness :
  exists before after,
    the_prompt Demo.session Demo.tables
    = before
      ++ ("- File: '" ++ "faq.csv" ++ "' | Columns: "
          ++ Py.join ", " (cols_sample Demo.faq_df))
      ++ after.
Proof.
  apply (X6_prompt_contains_every_summary_line Demo.session Demo.tables 1
           Demo.faq_csv Demo.faq_df); reflexivity.
Defined.

Lemma loop_calls_column (ncols : nat) (files : list UploadedFile) :
  forall (dfs : list DataFrame) (i k : nat) (f : UploadedFile) (df : DataFrame),
    i + length files <= ncols ->
    nth_error files k = Some f ->
    nth_error dfs k = Some df ->
    In (st_column (i + k) (st_write ("**" ++ name f ++ "**")))
       (loop_calls ncols i files dfs)
    /\ In (st_column (i + k) (st_dataframe (head 3 df)))
          (loop_calls ncols i files dfs).
Proof.
  induction files as [| f0 files IH]; intros [| d0 dfs] i [| k] f df Hle Hf Hd;
    simpl in Hf, Hd, Hle; try discriminate.
  - injection Hf as ->. injection Hd as ->.
    rewrite Nat.add_0_r. simpl loop_calls.
    rewrite (Nat.mod_small i ncols) by lia.
    split; simpl; tauto.
  - destruct (IH dfs (S i) k f df) as [H1 H2]; trivial; [lia |].
    replace (i + S k) with (S i + k) by lia.
    simpl loop_calls. split; right; right; right; assumption.
Qed.

Lemma loop_calls_in_range (ncols : nat) (files : list UploadedFile) :
  ncols <> 0 ->
  forall (dfs : list DataFrame) (i0 i : nat) (c : Call),
    In (st_column i c) (loop_calls ncols i0 files dfs) -> i < ncols.
Proof.
  intros Hn.
  induction files as [| f0 files IH]; intros [| d0 dfs] i0 i c Hin;
    simpl in Hin; try contradiction.
  destruct Hin as [H | [H | [H | Hin]]]; try discriminate.
  - injection H as <- _. now apply Nat.mod_upper_bound.
  - injection H as <- _. now apply Nat.mod_upper_bound.
  - exact (IH dfs (S i0) i c Hin).
Qed.

(** X7.  When the files parse, the loader draws the name and the preview of
    the k-th file in column k: the index [i % len(cols)] never wraps. *)
Theorem X7_preview_in_own_column (w : World) (files : list UploadedFile)
    (dfs : list DataFrame) (k : nat) (f : UploadedFile) (df : DataFrame) :
  parses w files dfs ->
  nth_error files k = Some f ->
  nth_error dfs k = Some df ->
  In (st_column k (st_write ("**" ++ name f ++ "**")))
     (trace (load_tables w files))
  /\ In (st_column k (st_dataframe (head 3 df)))
        (trace (load_tables w files)).
Proof.
  intros Hp Hf Hd.
  assert (Hne : files <> []) by (intros ->; destruct k; discriminate).
  rewrite (load_tables_parses w files dfs Hne Hp).
  unfold trace. cbn [fst].
  destruct (loop_calls_column (length files) files dfs 0 k f df) as [H1 H2];
    trivial.
  split; apply in_or_app; right; assumption.
Qed.

Lemma X7_preview_in_own_column_witness :
  In (st_column 1 (st_write "**faq.csv**"))
     (trace (load_tables Demo.answering [Demo.sales_csv; Demo.faq_csv]))
  /\ In (st_column 1 (st_dataframe (head 3 Demo.faq_df)))
        (trace (load_tables Demo.answering [Demo.sales_csv; Demo.faq_csv])).
Proof.
  apply (X7_preview_in_own_column Demo.answering
           [Demo.sales_csv; Demo.faq_csv] Demo.tables 1 Demo.faq_csv Demo.faq_df).
  - repeat constructor.
  - reflexivity.
  - reflexivity.
Defined.

Lemma in_columns (i : nat) (c : Call) (t : list Call) :
  In (st_column i c) t -> In (st_column i c) (filter in_column t).
Proof. intros H. apply filter_In. now split. Qed.

(** X8.  In every execution, whatever is drawn in a column is drawn in a
    column that [st.columns] created: its index is below the number of
    uploaded files. *)
Theorem X8_column_index_in_range (w : World) (inp : Inputs)
    (i : nat) (c : Call) :
  In (st_column i c) (trace (main w inp)) ->
  i < length (uploaded_files inp).
Proof.
  intros Hin. apply in_columns in Hin.
  destruct (main_path w inp) as [path Ht].
  rewrite (main_taken w inp path Ht) in Hin.
  assert (Hloop : forall files dfs,
             uploaded_files inp <> [] ->
             In (st_column i c)
                (filter in_column
                   (loop_calls (length (uploaded_files inp)) 0 files dfs)) ->
             i < length (uploaded_files inp)).
  { intros files dfs Hne H. apply filter_In in H. destruct H as [H _].
    apply (loop_calls_in_range _ files) in H; trivial.
    destruct (uploaded_files inp); [congruence | discriminate]. }
  assert (Hne : uploaded_files inp <> [] \/ path = NoKey \/ path = NoFiles).
  { destruct path; simpl in Ht; auto;
      try (destruct Ht as (_ & Hf & _); left; rewrite Hf; now destruct pre);
      try (destruct Ht as (_ & Hf & _); now left);
      destruct Ht as [[_ Hf _ _ _] _]; now left. }
  destruct Hne as [Hne | [-> | ->]]; [| contradiction | contradiction].
  destruct path; unfold path_run, trace, ready_calls, loaded_calls in Hin;
    cbn [fst] in Hin; rewrite ?filter_app in Hin;
    repeat (apply in_app_or in Hin; destruct Hin as [Hin | Hin]);
    try contradiction;
    eapply Hloop; eauto.
Qed.

Lemma X8_column_index_in_range_witness :
  1 < length (uploaded_files Demo.session).
Proof.
  apply (X8_column_index_in_range Demo.answering Demo.session 1
           (st_dataframe (head 3 Demo.faq_df))).
  vm_compute. tauto.
Defined.

(** X9.  Without a key nothing is done with the uploaded files, however
    many there are: no file is parsed, no preview is drawn and neither
    constructor is called. *)
Theorem X9_no_key_no_parsing (w : World) (inp : Inputs) :
  openai_api_key inp = "" ->
  files_read (trace (main w inp)) = []
  /\ dataframes_shown (trace (main w inp)) = []
  /\ filter is_constructor (trace (main w inp)) = [].
Proof.
  intros Hk. rewrite (main_no_key w inp Hk). repeat split; reflexivity.
Qed.

Lemma X9_no_key_no_parsing_witness :
  files_read (trace (main Demo.answering Demo.keyless)) = []
  /\ dataframes_shown (trace (main Demo.answering Demo.keyless)) = []
  /\ filter is_constructor (trace (main Demo.answering Demo.keyless)) = [].
Proof.
  apply (X9_no_key_no_parsing Demo.answering Demo.keyless). reflexivity.
Defined.

Lemma files_read_ask (w : World) (key : string) (dfs : list DataFrame)
    (sp q : string) :
  files_read (trace (ask w key dfs sp q)) = [].
Proof.
  destruct (llm_init w (the_llm key)) as [[] | e | b] eqn:Hl.
  2:{ now rewrite (ask_llm_raises w _ _ _ _ e Hl). }
  2:{ now rewrite (ask_llm_aborts w _ _ _ _ b Hl). }
  destruct (agent_init w (the_agent key dfs)) as [[] | e | b] eqn:Ha.
  2:{ now rewrite (ask_agent_raises w _ _ _ _ e Hl Ha). }
  2:{ now rewrite (ask_agent_aborts w _ _ _ _ b Hl Ha). }
  rewrite (ask_ready w _ _ _ _ Hl Ha). unfold trace. cbn [fst].
  rewrite files_read_app.
  destruct q as [| c q]; [reflexivity |].
  assert (Hq : String c q <> "") by discriminate.
  destruct (run w (the_agent key dfs) (final_query sp (String c q))) eqn:Hr.
  - now rewrite (answer_ok w _ _ _ _ Hq Hr).
  - now rewrite (answer_raise w _ _ _ _ Hq Hr).
  - now rewrite (answer_abort w _ _ _ _ Hq Hr).
Qed.

(** X10.  With a key, the files are handed to [pd.read_csv] once each, in
    upload order, up to and including the first one that fails: all of
    them when they all parse, and none after a failing one. *)
Theorem X10_files_read_in_order (w : World) (inp : Inputs) :
  openai_api_key inp <> "" ->
  (forall dfs,
      parses w (uploaded_files inp) dfs ->
      files_read (trace (main w inp)) = uploaded_files inp)
  /\ (forall pre bad post tables e,
        uploaded_files inp = (pre ++ bad :: post)%list ->
        parses w pre tables ->
        read_csv w bad = Raise e ->
        files_read (trace (main w inp)) = (pre ++ [bad])%list).
Proof.
  intros Hk. split.
  - intros dfs Hp.
    destruct (uploaded_files inp) as [| f0 fs] eqn:Hf.
    { now rewrite (main_no_files w inp Hk Hf). }
    assert (Hne : uploaded_files inp <> []) by (rewrite Hf; discriminate).
    rewrite <- Hf in *.
    rewrite (main_loaded w inp dfs Hk Hne Hp). cbv zeta.
    unfold trace at 1. cbn [fst].
    rewrite !files_read_app, files_read_ask.
    rewrite (files_read_loop _ _ _ _ (parses_length w _ _ Hp)).
    simpl. now rewrite app_nil_r.
  - intros pre bad post tables e Hf Hp Hb.
    rewrite (main_parse_error w inp pre post bad tables e Hk Hf Hp Hb).
    unfold trace. cbn [fst]. rewrite !files_read_app.
    rewrite (files_read_loop _ _ _ _ (parses_length w _ _ Hp)).
    reflexivity.
Qed.

Lemma X10_files_read_in_order_witness :
  files_read (trace (main Demo.answering Demo.with_broken))
  = [Demo.sales_csv; Demo.broken_csv].
Proof.
  destruct (X10_files_read_in_order Demo.answering Demo.with_broken) as [_ H].
  - discriminate.
  - apply (H [Demo.sales_csv] Demo.broken_csv [Demo.faq_csv] [Demo.sales_df]
             Demo.tokenizing_error).
    + reflexivity.
    + repeat constructor.
    + reflexivity.
Defined.

(** The banners of each branch. *)
Lemma banners_path (inp : Inputs) (path : Path) :
  banners (trace (path_run inp path))
  = match path with
    | NoKey =>
        [st_warning "Please enter your OpenAI API Key in the sidebar to proceed."]
    | NoFiles => [st_info "Please upload your CSV files to start."]
    | ParseFailed _ _ _ _ _ => []
    | LlmFailed _ e => [st_error ("Error initializing the AI agent: " ++ e)]
    | AgentFailed _ e => [st_error ("Error initializing the AI agent: " ++ e)]
    | Idle _ => []
    | Answered _ _ => [st_success "Analysis complete!"]
    | Failed _ e => [st_error ("Error while answering: " ++ e)]
    | ParseAborted _ _ _ _ _ | LlmAborted _ _ | AgentAborted _ _
    | RunAborted _ _ => []
    end.
Proof.
  destruct path; unfold path_run, trace, ready_calls, loaded_calls, banners;
    cbn [fst]; rewrite ?filter_app; rewrite ?filter_loop by reflexivity;
    reflexivity.
Qed.

Lemma in_banners (c : Call) (t : list Call) :
  is_banner c = true -> (In c t <-> In c (banners t)).
Proof.
  intros Hb. unfold banners. rewrite filter_In. tauto.
Qed.

(** X11.  An execution shows at most one banner among success, error,
    warning and info. *)
Theorem X11_at_most_one_banner (w : World) (inp : Inputs) :
  length (banners (trace (main w inp))) <= 1.
Proof.
  destruct (main_path w inp) as [path Ht].
  rewrite (main_taken w inp path Ht), banners_path.
  destruct path; simpl; lia.
Qed.

(** X12.  The success banner is shown exactly when the session is ready,
    the question is not empty and [agent.run] returns; its text is always
    "Analysis complete!". *)
Theorem X12_success_iff_answered (w : World) (inp : Inputs) (s : string) :
  In (st_success s) (trace (main w inp))
  <-> s = "Analysis complete!"
      /\ exists dfs r,
           ready w inp dfs
           /\ user_question inp <> ""
           /\ run w (the_agent (openai_api_key inp) dfs) (the_prompt inp dfs)
              = Ok r.
Proof.
  rewrite (in_banners (st_success s)) by reflexivity. split.
  - intros Hin. destruct (main_path w inp) as [path Ht].
    rewrite (main_taken w inp path Ht), banners_path in Hin.
    destruct path; simpl in Hin; try contradiction;
      destruct Hin as [H | []]; try discriminate.
    injection H as <-. split; [reflexivity |]. simpl in Ht. eauto.
  - intros (-> & dfs & r & Hr & Hq & Hrun).
    rewrite (main_taken w inp (Answered dfs r)) by (simpl; auto).
    rewrite banners_path. simpl. tauto.
Qed.

(** X13.  The API-key warning is shown exactly when the key is empty, and
    the upload prompt exactly when there is a key and no uploaded file. *)
Theorem X13_instructions_iff_missing_input (w : World) (inp : Inputs)
    (s : string) :
  (In (st_warning s) (trace (main w inp))
   <-> s = "Please enter your OpenAI API Key in the sidebar to proceed."
       /\ openai_api_key inp = "")
  /\ (In (st_info s) (trace (main w inp))
      <-> s = "Please upload your CSV files to start."
          /\ openai_api_key inp <> "" /\ uploaded_files inp = []).
Proof.
  split.
  - rewrite (in_banners (st_warning s)) by reflexivity. split.
    + intros Hin. destruct (main_path w inp) as [path Ht].
      rewrite (main_taken w inp path Ht), banners_path in Hin.
      destruct path; simpl in Hin; try contradiction;
      destruct Hin as [H | []]; try discriminate.
      injection H as <-. now split.
    + intros [-> Hk]. rewrite (main_taken w inp NoKey Hk), banners_path.
      simpl. tauto.
  - rewrite (in_banners (st_info s)) by reflexivity. split.
    + intros Hin. destruct (main_path w inp) as [path Ht].
      rewrite (main_taken w inp path Ht), banners_path in Hin.
      destruct path; simpl in Hin; try contradiction;
      destruct Hin as [H | []]; try discriminate.
      injection H as <-. now split.
    + intros (-> & Hk & Hf).
      rewrite (main_taken w inp NoFiles) by (simpl; auto).
      rewrite banners_path. simpl. tauto.
Qed.

(** X14.  An error banner is shown exactly when a constructor or
    [agent.run] raised an exception that derives from [Exception], which
    is what the two [except Exception] clauses catch; its text is "Error
    initializing the AI agent: " (a constructor raised) or "Error while
    answering: " ([agent.run] raised in a ready session) followed by the
    exception's text.  What does not derive from [Exception] is not
    caught and gives no banner. *)
Theorem X14_error_banner_origin (w : World) (inp : Inputs) (s : string) :
  (In (st_error s) (trace (main w inp))
  <-> (exists dfs e,
         s = "Error initializing the AI agent: " ++ e
         /\ openai_api_key inp <> "" /\ uploaded_files inp <> []
         /\ parses w (uploaded_files inp) dfs
         /\ (llm_init w (the_llm (openai_api_key inp)) = Raise e
             \/ (llm_init w (the_llm (openai_api_key inp)) = Ok tt
                 /\ agent_init w (the_agent (openai_api_key inp) dfs) = Raise e)))
      \/ (exists dfs e,
            s = "Error while answering: " ++ e
            /\ ready w inp dfs /\ user_question inp <> ""
            /\ run w (the_agent (openai_api_key inp) dfs) (the_prompt inp dfs)
               = Raise e))
  /\ (forall dfs b,
        ready w inp dfs -> user_question inp <> "" ->
        run w (the_agent (openai_api_key inp) dfs) (the_prompt inp dfs)
        = Abort b ->
        outcome (main w inp) = Abort b
        /\ banners (trace (main w inp)) = []).
Proof.
  split.
  2:{ intros dfs b Hr Hq Hrun.
      rewrite (main_taken w inp (RunAborted dfs b)) by (simpl; auto).
      rewrite banners_path. now split. }
  rewrite (in_banners (st_error s)) by reflexivity. split.
  - intros Hin. destruct (main_path w inp) as [path Ht].
    rewrite (main_taken w inp path Ht), banners_path in Hin.
    destruct path as [| | pre bad post tables e | dfs e | dfs e | dfs | dfs r
                     | dfs e | pre bad post tables b | dfs b | dfs b | dfs b];
      simpl in Hin; try contradiction; destruct Hin as [H | []];
      try discriminate; injection H as <-; simpl in Ht.
    + left. exists dfs, e. destruct Ht as (Hk & Hf & Hp & Hl). auto 10.
    + left. exists dfs, e. destruct Ht as (Hk & Hf & Hp & Hl & Ha). auto 10.
    + right. exists dfs, e. destruct Ht as (Hr & Hq & Hrun). auto.
  - intros [(dfs & e & -> & Hk & Hf & Hp & [Hl | [Hl Ha]])
           | (dfs & e & -> & Hr & Hq & Hrun)].
    + rewrite (main_taken w inp (LlmFailed dfs e)) by (simpl; auto).
      rewrite banners_path. simpl. tauto.
    + rewrite (main_taken w inp (AgentFailed dfs e)) by (simpl; auto).
      rewrite banners_path. simpl. tauto.
    + rewrite (main_taken w inp (Failed dfs e)) by (simpl; auto).
      rewrite banners_path. simpl. tauto.
Qed.

(** X14 at work: the agent's code calls [exit()] and no banner is shown. *)
Lemma X14_error_banner_origin_witness :
  outcome (main Demo.exiting Demo.session) = Abort "0"
  /\ banners (trace (main Demo.exiting Demo.session)) = [].
Proof.
  destruct (X14_error_banner_origin Demo.exiting Demo.session "") as [_ H].
  apply (H Demo.tables "0").
  - constructor; try discriminate; try reflexivity. repeat constructor.
  - discriminate.
  - reflexivity.
Defined.

Lemma question_field_path (inp : Inputs) (path : Path) :
  filter is_question_field (trace (path_run inp path))
  = match path with
    | Idle _ | Answered _ _ | Failed _ _ | RunAborted _ _ =>
        [st_text_input
           "Example: 'what is the return policy', 'total sales for 2023', 'show all delayed shipments'"
           false None]
    | _ => []
    end.
Proof.
  destruct path; unfold path_run, trace, ready_calls, loaded_calls;
    cbn [fst]; rewrite ?filter_app; rewrite ?filter_loop by reflexivity;
    reflexivity.
Qed.

(** X15.  The question field is drawn exactly in a ready session: a key,
    at least one file, every file parsed and both constructors returned. *)
Theorem X15_question_field_iff_ready (w : World) (inp : Inputs) :
  In (st_text_input
        "Example: 'what is the return policy', 'total sales for 2023', 'show all delayed shipments'"
        false None)
     (trace (main w inp))
  <-> exists dfs, ready w inp dfs.
Proof.
  split.
  - intros Hin.
    assert (Hf : In (st_text_input
        "Example: 'what is the return policy', 'total sales for 2023', 'show all delayed shipments'"
        false None) (filter is_question_field (trace (main w inp)))).
    { apply filter_In. now split. }
    destruct (main_path w inp) as [path Ht].
    rewrite (main_taken w inp path Ht), question_field_path in Hf.
    destruct path; simpl in Hf; try contradiction; simpl in Ht;
      destruct Ht as [Hr _]; eauto.
  - intros [dfs Hr]. rewrite (main_ready w inp dfs Hr).
    unfold trace at 1. cbn [fst]. apply in_or_app. left.
    unfold ready_calls. do 3 (apply in_or_app; right). simpl. tauto.
Qed.

(** X16.  The key is not echoed on the page: two ready sessions over the
    same files and question that differ only in the key, the agent doing
    the same under both, make exactly the same calls on the UI toolkit. *)
Theorem X16_page_independent_of_key (w : World) (inp1 inp2 : Inputs)
    (dfs : list DataFrame) :
  uploaded_files inp1 = uploaded_files inp2 ->
  user_question inp1 = user_question inp2 ->
  ready w inp1 dfs ->
  ready w inp2 dfs ->
  run w (the_agent (openai_api_key inp1) dfs) (the_prompt inp1 dfs)
  = run w (the_agent (openai_api_key inp2) dfs) (the_prompt inp2 dfs) ->
  ui_calls (trace (main w inp1)) = ui_calls (trace (main w inp2)).
Proof.
  intros Hf Hq R1 R2 Hrun.
  assert (Hready : ui_calls (ready_calls inp1 dfs) = ui_calls (ready_calls inp2 dfs)).
  { unfold ui_calls, ready_calls. rewrite !filter_app, Hf. reflexivity. }
  destruct (user_question inp1) as [| qc q] eqn:Hq1.
  { rewrite (main_ready_idle w inp1 dfs R1 Hq1).
    rewrite (main_ready_idle w inp2 dfs R2 (eq_sym Hq)). exact Hready. }
  assert (Hne1 : user_question inp1 <> "") by (rewrite Hq1; discriminate).
  assert (Hne2 : user_question inp2 <> "") by (rewrite <- Hq; discriminate).
  destruct (run w (the_agent (openai_api_key inp1) dfs) (the_prompt inp1 dfs))
    as [r | e | b] eqn:Hrun1.
  3:{ rewrite (main_ready_aborted w inp1 dfs b R1 Hne1 Hrun1).
      rewrite (main_ready_aborted w inp2 dfs b R2 Hne2 (eq_sym Hrun)).
      unfold trace, ui_calls in *. cbn [fst]. rewrite !filter_app, Hready.
      reflexivity. }
  - rewrite (main_ready_answered w inp1 dfs r R1 Hne1 Hrun1).
    rewrite (main_ready_answered w inp2 dfs r R2 Hne2 (eq_sym Hrun)).
    unfold trace, ui_calls in *. cbn [fst]. rewrite !filter_app, Hready.
    reflexivity.
  - rewrite (main_ready_failed w inp1 dfs e R1 Hne1 Hrun1).
    rewrite (main_ready_failed w inp2 dfs e R2 Hne2 (eq_sym Hrun)).
    unfold trace, ui_calls in *. cbn [fst]. rewrite !filter_app, Hready.
    reflexivity.
Qed.

Lemma X16_page_independent_of_key_witness :
  ui_calls (trace (main Demo.answering Demo.session))
  = ui_calls (trace (main Demo.answering Demo.session')).
Proof.
  apply (X16_page_independent_of_key Demo.answering Demo.session Demo.session'
           Demo.tables); try reflexivity.
  - constructor; try discriminate; try reflexivity. repeat constructor.
  - constructor; try discriminate; try reflexivity. repeat constructor.
Defined.

(** X17.  Every execution, including one that ends on the parser's
    exception, starts with the same page header: the sidebar with the key
    field and the file uploader are always drawn. *)
Theorem X17_header_always_drawn (w : World) (inp : Inputs) :
  (exists rest, trace (main w inp) = (header_calls ++ rest)%list)
  /\ In (st_sidebar
           (st_text_input "OpenAI API Key" true
              (Some "Enter your OpenAI API key here.")))
        (trace (main w inp))
  /\ In (st_file_uploader "Upload CSV files" ["csv"] true) (trace (main w inp)).
Proof.
  assert (H : exists rest, trace (main w inp) = (header_calls ++ rest)%list).
  { destruct (main_path w inp) as [path Ht].
    rewrite (main_taken w inp path Ht).
    destruct path; unfold path_run, trace, ready_calls, loaded_calls;
      cbn [fst]; rewrite <- ?app_assoc; eexists; reflexivity. }
  split; [exact H |]. destruct H as [rest ->].
  split; apply in_or_app; left; unfold header_calls; simpl; tauto.
Qed.

(** X18.  Whenever there is a key and the files parse, the model and the
    agent are constructed before any question is looked at: the model
    with the key, "gpt-4o" and temperature 0, and, if that returns, the
    agent over all the parsed tables with dangerous code allowed.  This
    happens on every such execution, with or without a question. *)
Theorem X18_agent_built_on_every_run (w : World) (inp : Inputs)
    (dfs : list DataFrame) :
  openai_api_key inp <> "" ->
  uploaded_files inp <> [] ->
  parses w (uploaded_files inp) dfs ->
  llm_init w (mkLlm 0 "gpt-4o" (openai_api_key inp)) = Ok tt ->
  filter is_constructor (trace (main w inp))
  = [ ChatOpenAI (mkLlm 0 "gpt-4o" (openai_api_key inp));
      create_pandas_dataframe_agent
        (mkAgent (mkLlm 0 "gpt-4o" (openai_api_key inp)) dfs
           true "openai-functions" true true) ].
Proof.
  intros Hk Hf Hp Hl.
  destruct (main_path w inp) as [path Ht].
  rewrite (main_taken w inp path Ht).
  assert (Hsame : forall d, parses w (uploaded_files inp) d -> d = dfs).
  { intros d Hd. apply map_Ok_inj.
    rewrite <- (proj1 (parses_map _ _ _) Hd).
    now rewrite <- (proj1 (parses_map _ _ _) Hp). }
  assert (Hsplit : forall pre bad post,
             uploaded_files inp = (pre ++ bad :: post)%list ->
             exists df, read_csv w bad = Ok df).
  { intros pre bad post E. rewrite E in Hp. apply Forall2_app_inv_l in Hp.
    destruct Hp as (l1 & l2 & _ & Hp2 & _).
    inversion Hp2 as [| ? df ? ? Hok _]; subst. now exists df. }
  destruct path as [| | pre bad post tables e | d e | d e | d | d r | d e
                   | pre bad post tables b | d b | d b | d b];
    simpl in Ht.
  9:{ destruct Ht as (_ & E & _ & Hbad). exfalso.
      destruct (Hsplit _ _ _ E). congruence. }
  9:{ destruct Ht as (_ & _ & _ & Hraise).
      unfold the_llm in Hraise. congruence. }
  9:{ destruct Ht as (_ & _ & Hd & _ & _). rewrite (Hsame d Hd).
      unfold path_run, trace, loaded_calls. cbn [fst].
      rewrite !filter_app. rewrite !filter_loop by reflexivity. reflexivity. }
  9:{ destruct Ht as ([_ _ Hd _ _] & _). rewrite (Hsame d Hd).
      unfold path_run, trace, ready_calls. cbn [fst].
      rewrite !filter_app. rewrite !filter_loop by reflexivity. reflexivity. }
  - contradiction.
  - destruct Ht as [_ Hnil]. contradiction.
  - destruct Ht as (_ & E & _ & Hbad). exfalso.
    destruct (Hsplit _ _ _ E). congruence.
  - destruct Ht as (_ & _ & _ & Hraise).
    unfold the_llm in Hraise. congruence.
  - destruct Ht as (_ & _ & Hd & _ & _). rewrite (Hsame d Hd).
    unfold path_run, trace, loaded_calls. cbn [fst].
    rewrite !filter_app. rewrite !filter_loop by reflexivity. reflexivity.
  - destruct Ht as [[_ _ Hd _ _] _]. rewrite (Hsame d Hd).
    unfold path_run, trace, ready_calls. cbn [fst].
    rewrite !filter_app. rewrite !filter_loop by reflexivity. reflexivity.
  - destruct Ht as ([_ _ Hd _ _] & _). rewrite (Hsame d Hd).
    unfold path_run, trace, ready_calls, answered_calls. cbn [fst].
    rewrite !filter_app. rewrite !filter_loop by reflexivity. reflexivity.
  - destruct Ht as ([_ _ Hd _ _] & _). rewrite (Hsame d Hd).
    unfold path_run, trace, ready_calls, failed_calls. cbn [fst].
    rewrite !filter_app. rewrite !filter_loop by reflexivity. reflexivity.
Qed.

(** X18 at work: key and files, no question typed. *)
Lemma X18_agent_built_on_every_run_witness :
  filter is_constructor (trace (main Demo.answering Demo.waiting))
  = [ ChatOpenAI (mkLlm 0 "gpt-4o" "sk-test");
      create_pandas_dataframe_agent
        (mkAgent (mkLlm 0 "gpt-4o" "sk-test") Demo.tables
           true "openai-functions" true true) ].
Proof.
  apply (X18_agent_built_on_every_run Demo.answering Demo.waiting Demo.tables).
  - discriminate.
  - discriminate.
  - repeat constructor.
  - reflexivity.
Defined.

(** X19.  With a key and at least one uploaded file, the heading "Loaded N
    CSV file(s):" counts the uploaded files and is written, with the N
    columns, before any file is parsed: it is there whether or not the
    files then parse. *)
Theorem X19_loaded_heading_counts_uploads (w : World) (inp : Inputs) :
  openai_api_key inp <> "" ->
  uploaded_files inp <> [] ->
  exists rest,
    trace (main w inp)
    = (header_calls
       ++ [ st_write ("### Loaded "
                      ++ Py.str_of_nat (length (uploaded_files inp))
                      ++ " CSV file(s):");
            st_columns (length (uploaded_files inp)) ]
       ++ rest)%list
    /\ files_read header_calls = [].
Proof.
  intros Hk Hf. destruct (main_path w inp) as [path Ht].
  rewrite (main_taken w inp path Ht).
  fold (banner_calls (length (uploaded_files inp))).
  destruct path; simpl in Ht;
    try contradiction; try (destruct Ht as [_ Hnil]; contradiction);
    unfold path_run, trace, ready_calls, loaded_calls; cbn [fst];
    rewrite <- ?app_assoc; eexists; (split; [reflexivity | reflexivity]).
Qed.

(** X19 at work: three uploads, the second of which does not parse. *)
Lemma X19_loaded_heading_counts_uploads_witness :
  exists rest,
    trace (main Demo.answering Demo.with_broken)
    = (header_calls
       ++ [ st_write ("### Loaded " ++ Py.str_of_nat 3 ++ " CSV file(s):");
            st_columns 3 ]
       ++ rest)%list
    /\ files_read header_calls = [].
Proof.
  apply (X19_loaded_heading_counts_uploads Demo.answering Demo.with_broken);
    discriminate.
Defined.
